(** * Heading extraction: a shallow embedding of [app/extractor.py]

    The development follows the class [HeadingExtractor] method by method.

    Modelling choices, all of them visible in the definitions below:
    - a Python [str] is a list of Unicode code points ([pystr]);
    - the character classes of the Python runtime ([str.isspace],
      [str.isupper], ...) are an interface ([Unicode]); every general theorem
      holds for every instance, and [ascii_unicode] is the instance the
      concrete runs are evaluated with;
    - a font size is a Python [float].  The object and the two passes take
      it as an exact rational ([Q]), with [round(x, 1)] rounding half to even
      on the tenths: this is the reading for what depends on the rounding to
      one decimal, on the order and on the equality of sizes.  What the
      methods compute with sizes, the products and the average, is stated on
      the floats themselves, in [Binary64], where [*], [+], [/] and [<=] are
      the operations of IEEE 754 binary64;
    - a [dict] is an association list in insertion order, looked up with the
      equality of its keys ([Qeq_bool] for float keys);
    - the methods run in a monad that threads the fields of [self] and in
      which an exception keeps the mutations made before it was raised. *)

From Stdlib Require Import ZArith QArith Qround Lqa Lia Bool List SetoidList Sorted.
From Stdlib Require Import Ascii String.
From Stdlib Require Import Floats.
Import ListNotations.

Local Open Scope Q_scope.

(** ** Python strings *)

Definition pystr := list N.

(** The code points of a UTF-8 encoded literal of this file. *)
Fixpoint decode_utf8 (s : string) : pystr :=
  match s with
  | EmptyString => []
  | String c0 r0 =>
      let b0 := N_of_ascii c0 in
      if (b0 <? 128)%N then b0 :: decode_utf8 r0
      else if (b0 <? 224)%N then
        match r0 with
        | String c1 r1 =>
            ((b0 - 192) * 64 + (N_of_ascii c1 - 128))%N :: decode_utf8 r1
        | _ => [b0]
        end
      else if (b0 <? 240)%N then
        match r0 with
        | String c1 (String c2 r2) =>
            ((b0 - 224) * 4096 + (N_of_ascii c1 - 128) * 64
             + (N_of_ascii c2 - 128))%N :: decode_utf8 r2
        | _ => [b0]
        end
      else
        match r0 with
        | String c1 (String c2 (String c3 r3)) =>
            ((b0 - 240) * 262144 + (N_of_ascii c1 - 128) * 4096
             + (N_of_ascii c2 - 128) * 64 + (N_of_ascii c3 - 128))%N
            :: decode_utf8 r3
        | _ => [b0]
        end
  end.

(** A string literal of the source. *)
Definition py (s : string) : pystr := decode_utf8 s.
Arguments py s%_string.

Definition str_eqb (a b : pystr) : bool :=
  if list_eq_dec N.eq_dec a b then true else false.

(** [not s] for a string: true exactly on the empty string. *)
Definition str_not (s : pystr) : bool :=
  match s with [] => true | _ => false end.

(** [len(s)] *)
Definition len {A} (l : list A) : Z := Z.of_nat (List.length l).

(** [s.startswith(k)] *)
Fixpoint startswith (s k : pystr) : bool :=
  match k, s with
  | [], _ => true
  | _ :: _, [] => false
  | b :: k', a :: s' => if (a =? b)%N then startswith s' k' else false
  end.

(** [s.endswith(k)] *)
Definition endswith (s k : pystr) : bool := startswith (rev s) (rev k).

(** [c in s] for a one-character [c]. *)
Definition str_in (c : N) (s : pystr) : bool := existsb (N.eqb c) s.

(** [s.replace(c, '')] for a one-character [c]. *)
Definition str_remove (c : N) (s : pystr) : pystr :=
  filter (fun a => negb (a =? c)%N) s.

(** [s[:n]] *)
Definition slice_to (n : nat) (s : pystr) : pystr := firstn n s.

(** [s.find(sub)], counted from [i]. *)
Fixpoint find_from (i : Z) (s sub : pystr) : Z :=
  match s with
  | [] => if startswith [] sub then i else (-1)%Z
  | _ :: s' => if startswith s sub then i else find_from (i + 1)%Z s' sub
  end.

Definition str_find (s sub : pystr) : Z := find_from 0%Z s sub.

(** The character database of the Python runtime. *)
Class Unicode := {
  ch_isspace : N -> bool;
  ch_isdigit : N -> bool;
  ch_isupper : N -> bool;
  ch_islower : N -> bool;
  ch_istitle : N -> bool;
  (** [str.lower] (it is not a map over the characters: the final sigma) *)
  str_lower : pystr -> pystr
}.

Section StringMethods.
Context {U : Unicode}.

Fixpoint lstrip (s : pystr) : pystr :=
  match s with
  | [] => []
  | c :: s' => if ch_isspace c then lstrip s' else s
  end.

(** [s.strip()] *)
Definition strip (s : pystr) : pystr := rev (lstrip (rev (lstrip s))).

(** [s.split()]: the maximal runs of characters that are not whitespace;
    [cur] is the run being read, last character first. *)
Fixpoint split_from (cur : pystr) (s : pystr) : list pystr :=
  match s with
  | [] => match cur with [] => [] | _ => [rev cur] end
  | c :: s' =>
      if ch_isspace c
      then match cur with
           | [] => split_from [] s'
           | _ => rev cur :: split_from [] s'
           end
      else split_from (c :: cur) s'
  end.

Definition str_split (s : pystr) : list pystr := split_from [] s.

(** [s.isdigit()] *)
Definition isdigit (s : pystr) : bool :=
  match s with
  | [] => false
  | _ => forallb ch_isdigit s
  end.

(** The loop of [s.isupper()]; [cased] records an uppercase character. *)
Fixpoint isupper_from (cased : bool) (s : pystr) : bool :=
  match s with
  | [] => cased
  | c :: s' =>
      if ch_islower c || ch_istitle c then false
      else if negb cased && ch_isupper c then isupper_from true s'
      else isupper_from cased s'
  end.

(** [s.isupper()] *)
Definition isupper (s : pystr) : bool :=
  match s with
  | [c] => ch_isupper c
  | _ => isupper_from false s
  end.

(** The loop of [s.istitle()]. *)
Fixpoint istitle_from (cased previous_is_cased : bool) (s : pystr) : bool :=
  match s with
  | [] => cased
  | c :: s' =>
      if ch_isupper c || ch_istitle c then
        if previous_is_cased then false else istitle_from true true s'
      else if ch_islower c then
        if negb previous_is_cased then false else istitle_from true true s'
      else istitle_from cased false s'
  end.

(** [s.istitle()] *)
Definition istitle (s : pystr) : bool :=
  match s with
  | [c] => ch_istitle c || ch_isupper c
  | _ => istitle_from false false s
  end.
End StringMethods.

(** The runtime's classes on the code points below 128; the whitespace list is
    the complete one.  Code points from 128 on are otherwise unclassified. *)
Definition in_range (lo hi c : N) : bool := ((lo <=? c) && (c <=? hi))%N.

Definition ascii_isspace (c : N) : bool :=
  in_range 9 13 c || in_range 28 32 c || (c =? 133)%N || (c =? 160)%N
  || (c =? 5760)%N || in_range 8192 8202 c || in_range 8232 8233 c
  || (c =? 8239)%N || (c =? 8287)%N || (c =? 12288)%N.

Definition ascii_lower_char (c : N) : N :=
  if in_range 65 90 c then (c + 32)%N else c.

#[export] Instance ascii_unicode : Unicode := {|
  ch_isspace := ascii_isspace;
  ch_isdigit := in_range 48 57;
  ch_isupper := in_range 65 90;
  ch_islower := in_range 97 122;
  ch_istitle := fun _ => false;
  str_lower := map ascii_lower_char
|}.

(** ** Floats as exact rationals *)

Definition Qltb (x y : Q) : bool := negb (Qle_bool y x).
(** [x >= y] *)
Definition Qgeb (x y : Q) : bool := Qle_bool y x.
(** [x > y] *)
Definition Qgtb (x y : Q) : bool := Qltb y x.

(** The integer nearest to [y], a tie going to the even one. *)
Definition round_half_even (y : Q) : Z :=
  let f := Qfloor y in
  match Qcompare (y - inject_Z f) (1 # 2) with
  | Lt => f
  | Gt => (f + 1)%Z
  | Eq => if Z.even f then f else (f + 1)%Z
  end.

(** [round(x, 1)] *)
Definition py_round1 (x : Q) : Q := Qmake (round_half_even (x * 10)) 10.

(** ** Dictionaries with float keys *)

Definition dict (V : Type) := list (Q * V).

Section Dict.
Context {V : Type}.

(** [d.get(k)] *)
Fixpoint dict_get (k : Q) (d : dict V) : option V :=
  match d with
  | [] => None
  | (k', v) :: d' => if Qeq_bool k' k then Some v else dict_get k d'
  end.

(** [k in d] *)
Definition dict_in (k : Q) (d : dict V) : bool :=
  match dict_get k d with Some _ => true | None => false end.

(** [d[k] = v]: an existing key keeps its place and its key object. *)
Fixpoint dict_set (k : Q) (v : V) (d : dict V) : dict V :=
  match d with
  | [] => [(k, v)]
  | (k', v') :: d' =>
      if Qeq_bool k' k then (k', v) :: d' else (k', v') :: dict_set k v d'
  end.

Definition keys (d : dict V) : list Q := map fst d.
Definition values (d : dict V) : list V := map snd d.

(** [d[k]] mutated in place by [f]; the key is present wherever the source
    does this. *)
Fixpoint dict_modify (k : Q) (f : V -> V) (d : dict V) : dict V :=
  match d with
  | [] => []
  | (k', v) :: d' =>
      if Qeq_bool k' k then (k', f v) :: d' else (k', v) :: dict_modify k f d'
  end.
End Dict.

(** [sorted(l, reverse=True)]: a stable insertion sort, largest first. *)
Fixpoint insert_desc (x : Q) (l : list Q) : list Q :=
  match l with
  | [] => [x]
  | y :: l' => if Qle_bool y x then x :: l else y :: insert_desc x l'
  end.

Definition sorted_reverse (l : list Q) : list Q := fold_right insert_desc [] l.

(** [sum(l)] *)
Definition sum (l : list Q) : Q := fold_left Qplus l 0.

(** ** What pdfplumber hands over

    A field that is [None] is one whose access raises (a missing key, a value
    that is not a number), except [fontname], which is read with [char.get]. *)

Record Char := {
  c_text : option pystr;
  c_size : option Q;
  c_fontname : option pystr;
  c_top : option Q
}.

(** [page.chars]; [None] when reading the page raises. *)
Record Page := { chars : option (list Char) }.

Record Pdf := { pages : list Page }.

(** [pdfplumber.open(pdf_path)]; [None] when opening raises. *)
Definition PdfFile := option Pdf.

(** ** The object *)

(** An element of [self.headings]. *)
Record Heading := {
  h_text : pystr;
  h_page : Z;
  h_level : pystr
}.

(** The fields of [self] that the methods assign. *)
Record HeadingExtractor := {
  headings : list Heading;
  size_thresholds : dict Z
}.

(** [self.heading_patterns], assigned once by [__init__] and only read. *)
Definition heading_patterns : list (pystr * list pystr) :=
  [ (py "en", [py "Chapter"; py "Section"; py "Part"; py "Overview";
               py "Summary"; py "Conclusion"; py "Appendix"]);
    (py "es", [py "Capítulo"; py "Sección"; py "Parte"; py "Resumen";
               py "Conclusión"; py "Apéndice"]);
    (py "fr", [py "Chapitre"; py "Section"; py "Partie"; py "Aperçu";
               py "Résumé"; py "Conclusion"; py "Annexe"]);
    (py "de", [py "Kapitel"; py "Abschnitt"; py "Teil"; py "Überblick";
               py "Zusammenfassung"; py "Fazit"; py "Anhang"]);
    (py "zh", [py "章"; py "节"; py "部分"; py "概述"; py "摘要"; py "结论";
               py "附录"]);
    (py "ja", [py "章"; py "節"; py "部"; py "概要"; py "要約"; py "結論";
               py "付録"]);
    (py "ko", [py "장"; py "절"; py "부분"; py "개요"; py "요약"; py "결론";
               py "부록"]) ].

(** [HeadingExtractor()] *)
Definition __init__ : HeadingExtractor :=
  {| headings := []; size_thresholds := [] |}.

(** ** The monad of the methods *)

Inductive outcome (A : Type) : Type :=
| Returned (a : A)
| Raised.
Arguments Returned {A} a.
Arguments Raised {A}.

Definition M (A : Type) : Type := HeadingExtractor -> outcome A * HeadingExtractor.

Definition ret {A} (a : A) : M A := fun self => (Returned a, self).

Definition bind {A B} (m : M A) (k : A -> M B) : M B :=
  fun self =>
    match m self with
    | (Returned a, self') => k a self'
    | (Raised, self') => (Raised, self')
    end.

Definition raise {A} : M A := fun self => (Raised, self).

(** [try: body except Exception: handler] *)
Definition try_except {A} (body handler : M A) : M A :=
  fun self =>
    match body self with
    | (Returned a, self') => (Returned a, self')
    | (Raised, self') => handler self'
    end.

Declare Scope py_scope.
Delimit Scope py_scope with py.
Notation "x <- m ;; k" := (bind m (fun x => k))
  (at level 61, m at next level, right associativity) : py_scope.
Notation "m ;; k" := (bind m (fun _ => k))
  (at level 61, right associativity) : py_scope.
Local Open Scope py_scope.

(** [d[key]] on a record of pdfplumber. *)
Definition item {A} (field : option A) : M A :=
  match field with
  | Some a => ret a
  | None => raise
  end.

Definition get_size_thresholds : M (dict Z) :=
  fun self => (Returned (size_thresholds self), self).

Definition set_size_thresholds (d : dict Z) : M unit :=
  fun self => (Returned tt, {| headings := headings self; size_thresholds := d |}).

Definition get_headings : M (list Heading) :=
  fun self => (Returned (headings self), self).

Definition set_headings (l : list Heading) : M unit :=
  fun self => (Returned tt, {| headings := l; size_thresholds := size_thresholds self |}).

(** [for x in l: body(x)] *)
Fixpoint for_each {A} (l : list A) (body : A -> M unit) : M unit :=
  match l with
  | [] => ret tt
  | x :: l' => body x ;; for_each l' body
  end.

(** A loop that assigns a local variable: [body] gets its value and returns
    the new one. *)
Fixpoint for_each_with {A B} (l : list A) (local : B) (body : B -> A -> M B) : M B :=
  match l with
  | [] => ret local
  | x :: l' => local' <- body local x ;; for_each_with l' local' body
  end.

(** [a and m], [m] evaluated only when [a] holds. *)
Definition and_then (a : bool) (m : M bool) : M bool :=
  if a then m else ret false.

(** ** The methods of [HeadingExtractor] *)

Definition ch (s : string) : N := hd 0%N (py s).
Arguments ch s%_string.

Definition Untitled : pystr := py "Untitled".
Definition H1 : pystr := py "H1".
Definition H2 : pystr := py "H2".
Definition H3 : pystr := py "H3".

(** The counting statement that the source writes out twice, in the first
    pass of [extract_headings] and in [_is_heading]:
    [if size not in self.size_thresholds: self.size_thresholds[size] = 1]
    [else: self.size_thresholds[size] += 1] *)
Definition count_size (size : Q) : M unit :=
  d <- get_size_thresholds ;;
  match dict_get size d with
  | None => set_size_thresholds (dict_set size 1%Z d)
  | Some n => set_size_thresholds (dict_set size (n + 1)%Z d)
  end.

(** [_get_average_font_size], the sum and the quotient exact; on the floats
    it is [Binary64._get_average_font_size]. *)
Definition _get_average_font_size : M Q :=
  d <- get_size_thresholds ;;
  match d with
  | [] => ret 12.0
  | _ =>
      let sizes := keys d in
      ret (sum sizes / inject_Z (len sizes))
  end.

(** [_determine_level], the products exact; on the floats it is
    [Binary64._determine_level]. *)
Definition _determine_level (size : Q) : M pystr :=
  d <- get_size_thresholds ;;
  match d with
  | [] => ret H3
  | _ =>
      match sorted_reverse (keys d) with
      | [] => ret H3
      | largest :: _ =>
          let threshold_h1 := largest * 0.9 in
          let threshold_h2 := largest * 0.8 in
          if Qgeb size threshold_h1 then ret H1
          else if Qgeb size threshold_h2 then ret H2
          else ret H3
      end
  end.

(** [_get_title_threshold], the product exact; on the floats it is
    [Binary64._get_title_threshold]. *)
Definition _get_title_threshold : M Q :=
  d <- get_size_thresholds ;;
  match d with
  | [] => ret 18.0
  | _ =>
      match sorted_reverse (keys d) with
      | [] => ret 18.0
      | largest :: _ => ret (largest * 0.95)
      end
  end.

(** An element of [lines_by_font]. *)
Record Entry := {
  e_text : pystr;
  e_size : Q;
  e_font : pystr;
  e_page : Z
}.

(** [entry["text"] += text] *)
Definition add_text (text : pystr) (e : Entry) : Entry :=
  {| e_text := e_text e ++ text; e_size := e_size e;
     e_font := e_font e; e_page := e_page e |}.

Section Methods.
Context {U : Unicode}.

(** The test of line 46: the line starts with a keyword of some language. *)
Definition starts_with_keyword (line : pystr) : bool :=
  existsb (fun patterns => existsb (fun k => startswith line k) patterns)
          (map snd heading_patterns).

(** The test of line 50. *)
Definition numbered_pattern (line : pystr) : bool :=
  isdigit (str_remove (ch ".") (strip (slice_to 6 line)))
  && str_in (ch ".") (slice_to 6 line).

(** The test of line 70. *)
Definition form_field (line : pystr) : bool :=
  str_in (ch ":") line && negb (endswith line (py ".")).

(** [_is_heading] *)
Definition _is_heading (line : pystr) (font_size : Q) (font_name : pystr) : M bool :=
  if str_not line || (len line >? 100)%Z then ret false else
  (if Qgtb font_size 0 then count_size font_size else ret tt) ;;
  if starts_with_keyword line then ret true else
  if numbered_pattern line then ret true else
  if isupper line && (len (str_split line) <=? 6)%Z then ret true else
  if istitle line && (len (str_split line) <=? 8)%Z then ret true else
  short_and_large <-
    and_then (len (str_split line) <=? 5)%Z
             (average <- _get_average_font_size ;; ret (Qgeb font_size average)) ;;
  if short_and_large then ret true else
  if negb (str_find (str_lower font_name) (py "bold") =? -1)%Z
     && (len (str_split line) <=? 8)%Z then ret true else
  if form_field line then ret false else
  ret false.

(** [_is_heading] with the statement of lines 69 to 71 taken out. *)
Definition _is_heading_without_form_field_rule
    (line : pystr) (font_size : Q) (font_name : pystr) : M bool :=
  if str_not line || (len line >? 100)%Z then ret false else
  (if Qgtb font_size 0 then count_size font_size else ret tt) ;;
  if starts_with_keyword line then ret true else
  if numbered_pattern line then ret true else
  if isupper line && (len (str_split line) <=? 6)%Z then ret true else
  if istitle line && (len (str_split line) <=? 8)%Z then ret true else
  short_and_large <-
    and_then (len (str_split line) <=? 5)%Z
             (average <- _get_average_font_size ;; ret (Qgeb font_size average)) ;;
  if short_and_large then ret true else
  if negb (str_find (str_lower font_name) (py "bold") =? -1)%Z
     && (len (str_split line) <=? 8)%Z then ret true else
  ret false.

(** The first pass, lines 103 to 110. *)
Definition first_pass (pdf : Pdf) : M unit :=
  for_each (pages pdf) (fun page =>
    page_chars <- item (chars page) ;;
    for_each page_chars (fun char =>
      char_size <- item (c_size char) ;;
      if Qgtb char_size 0 then count_size (py_round1 char_size) else ret tt)).

(** The body of the loop of line 117: one character enters [lines_by_font]. *)
Definition group_char (page_num : Z) (lines_by_font : dict Entry) (char : Char)
  : M (dict Entry) :=
  char_size <- item (c_size char) ;;
  let font_size := py_round1 char_size in
  let font_name := match c_fontname char with Some f => f | None => py "" end in
  char_text <- item (c_text char) ;;
  let text := strip char_text in
  char_top <- item (c_top char) ;;
  let top_key := py_round1 char_top in
  let lines_by_font :=
    if negb (dict_in top_key lines_by_font)
    then dict_set top_key
           {| e_text := py ""; e_size := font_size; e_font := font_name;
              e_page := (page_num + 1)%Z |} lines_by_font
    else lines_by_font in
  ret (dict_modify top_key (add_text text) lines_by_font).

(** The body of the loop of line 134: one entry is classified. *)
Definition classify_entry (title : pystr) (entry : Entry) : M pystr :=
  let line := strip (e_text entry) in
  if str_not line || (len line >? 100)%Z then ret title else
  is_heading <- _is_heading line (e_size entry) (e_font entry) ;;
  if is_heading then
    level <- _determine_level (e_size entry) ;;
    large <- and_then (str_eqb title Untitled)
               (threshold <- _get_title_threshold ;;
                ret (Qgeb (e_size entry) threshold)) ;;
    let title := if large then line else title in
    hs <- get_headings ;;
    set_headings (hs ++ [{| h_text := line; h_page := e_page entry;
                            h_level := level |}]) ;;
    ret title
  else ret title.

(** The body of the loop of line 113: one page is assembled and classified;
    [numbered] is [page_num] with [pdf.pages[page_num]]. *)
Definition page_body (title : pystr) (numbered : Z * Page) : M pystr :=
  let '(page_num, page) := numbered in
  page_chars <- item (chars page) ;;
  lines_by_font <- for_each_with page_chars [] (group_char page_num) ;;
  for_each_with (values lines_by_font) title classify_entry.

(** The second pass, lines 113 to 147; [title] is the local variable. *)
Definition second_pass (pdf : Pdf) (title : pystr) : M pystr :=
  for_each_with (combine (map Z.of_nat (seq 0 (List.length (pages pdf)))) (pages pdf))
    title page_body.

(** The [try] block of [extract_headings], lines 101 to 149. *)
Definition try_block (pdf_path : PdfFile) (title : pystr) : M (pystr * list Heading) :=
  pdf <- item pdf_path ;;
  first_pass pdf ;;
  title <- second_pass pdf title ;;
  hs <- get_headings ;;
  ret (title, hs).

(** [extract_headings] *)
Definition extract_headings (pdf_path : PdfFile) : M (pystr * list Heading) :=
  set_headings [] ;;
  set_size_thresholds [] ;;
  let title := Untitled in
  try_except (try_block pdf_path title) (ret (Untitled, [])).

(** The loop of [process_pdfs] in [run.py], on the files of the directory
    in the order [os.listdir] gives them: what each call returned. *)
Fixpoint process_pdfs (files : list PdfFile) (extractor : HeadingExtractor)
  : list (outcome (pystr * list Heading)) :=
  match files with
  | [] => []
  | pdf_path :: files' =>
      let '(result, extractor') := extract_headings pdf_path extractor in
      result :: process_pdfs files' extractor'
  end.
End Methods.

(** ** Views of the methods, used to state what they compute *)

(** The histogram after the counting statement ran on [size]. *)
Definition counted (size : Q) (d : dict Z) : dict Z :=
  match dict_get size d with
  | None => dict_set size 1%Z d
  | Some n => dict_set size (n + 1)%Z d
  end.

Definition with_thresholds (d : dict Z) (self : HeadingExtractor) : HeadingExtractor :=
  {| headings := headings self; size_thresholds := d |}.

(** What [_is_heading] leaves in the histogram once the length test passed. *)
Definition recorded (font_size : Q) (d : dict Z) : dict Z :=
  if Qgtb font_size 0 then counted font_size d else d.

(** The value [_get_average_font_size] returns on a histogram. *)
Definition average (d : dict Z) : Q :=
  match d with
  | [] => 12.0
  | _ => sum (keys d) / inject_Z (len (keys d))
  end.

(** The largest of a list of sizes, by comparison (the words of the
    specification: the largest observed size). *)
Definition Qmax (a b : Q) : Q := if Qle_bool a b then b else a.

Definition largest_of (l : list Q) : option Q :=
  match l with
  | [] => None
  | x :: l' => Some (fold_left Qmax l' x)
  end.

Definition largest_observed (d : dict Z) : option Q := largest_of (keys d).

(** [m] is a largest element of [l]. *)
Definition is_largest (m : Q) (l : list Q) : Prop :=
  In m l /\ forall x, In x l -> x <= m.

(** The level the specification gives to a size. *)
Definition level_of (size : Q) (largest : option Q) : pystr :=
  match largest with
  | None => H3
  | Some l =>
      if Qgeb size (0.9 * l) then H1
      else if Qgeb size (0.8 * l) then H2
      else H3
  end.

(** The comparison of line 141, on the value of [_get_title_threshold]. *)
Definition reaches_title_threshold (size : Q) (d : dict Z) : bool :=
  match largest_observed d with
  | None => Qgeb size 18.0
  | Some largest => Qgeb size (0.95 * largest)
  end.

(** The distinct sizes of a sequence of observations, in the order of their
    first occurrence. *)
Definition add_distinct (seen : list Q) (x : Q) : list Q :=
  if existsb (fun k => Qeq_bool k x) seen then seen else seen ++ [x].

Definition distinct_sizes (obs : list Q) : list Q := fold_left add_distinct obs [].

(** The arithmetic mean. *)
Definition mean (l : list Q) : Q := sum l / inject_Z (len l).

Section Views.
Context {U : Unicode}.

(** The accepting tests of [_is_heading], in one expression; [avg] is the
    average the fifth test reads. *)
Definition accepts (line : pystr) (font_size : Q) (font_name : pystr) (avg : Q) : bool :=
  starts_with_keyword line
  || numbered_pattern line
  || (isupper line && (len (str_split line) <=? 6)%Z)
  || (istitle line && (len (str_split line) <=? 8)%Z)
  || ((len (str_split line) <=? 5)%Z && Qgeb font_size avg)
  || (negb (str_find (str_lower font_name) (py "bold") =? -1)%Z
      && (len (str_split line) <=? 8)%Z).

(** The condition of the numbered rule as the specification words it: the
    first six characters, periods removed, are digits, and there is a
    period among the six. *)
Definition numbered_prefix_as_specified (line : pystr) : bool :=
  isdigit (str_remove (ch ".") (slice_to 6 line))
  && str_in (ch ".") (slice_to 6 line).
End Views.

(** ** The document as the two passes read it *)

(** The sizes the first pass counts on a page: the rounded sizes of the
    characters whose size is positive. *)
Definition char_sizes (cs : list Char) : list Q :=
  flat_map (fun c => match c_size c with
                     | Some s => if Qgtb s 0 then [py_round1 s] else []
                     | None => []
                     end) cs.

Definition page_sizes (p : Page) : list Q :=
  match chars p with
  | Some cs => char_sizes cs
  | None => []
  end.

Definition document_sizes (pdf : Pdf) : list Q := flat_map page_sizes (pages pdf).

(** The histogram's keys of a document: its distinct sizes. *)
Definition document_keys (pdf : Pdf) : list Q := distinct_sizes (document_sizes pdf).

(** The size of an entry is not positive or is among the keys [sizes]. *)
Definition covered (sizes : list Q) (e_size : Q) : Prop :=
  0 < e_size -> InA Qeq e_size sizes.

(** The value [_get_average_font_size] returns, from the keys. *)
Definition average_of (sizes : list Q) : Q :=
  match sizes with
  | [] => 12.0
  | _ => mean sizes
  end.

Section Reading.
Context {U : Unicode}.

(** [lines_by_font] after one more character, when its fields can be read. *)
Definition group_char_view (page_num : Z) (lines_by_font : dict Entry) (char : Char)
  : option (dict Entry) :=
  match c_size char, c_text char, c_top char with
  | Some char_size, Some char_text, Some char_top =>
      let top_key := py_round1 char_top in
      let lines_by_font :=
        if negb (dict_in top_key lines_by_font)
        then dict_set top_key
               {| e_text := py "";
                  e_size := py_round1 char_size;
                  e_font := match c_fontname char with
                            | Some f => f
                            | None => py ""
                            end;
                  e_page := (page_num + 1)%Z |} lines_by_font
        else lines_by_font in
      Some (dict_modify top_key (add_text (strip char_text)) lines_by_font)
  | _, _, _ => None
  end.

Fixpoint assemble_from (page_num : Z) (lines_by_font : dict Entry) (cs : list Char)
  : option (dict Entry) :=
  match cs with
  | [] => Some lines_by_font
  | c :: cs' =>
      match group_char_view page_num lines_by_font c with
      | Some lines_by_font' => assemble_from page_num lines_by_font' cs'
      | None => None
      end
  end.

(** The entries of a page in the order the second pass classifies them;
    [None] when reading the page raises. *)
Definition page_lines (page_num : nat) (page : Page) : option (list Entry) :=
  match chars page with
  | Some cs => option_map values (assemble_from (Z.of_nat page_num) [] cs)
  | None => None
  end.

Fixpoint pages_lines (page_num : nat) (ps : list Page) : option (list Entry) :=
  match ps with
  | [] => Some []
  | p :: ps' =>
      match page_lines page_num p, pages_lines (S page_num) ps' with
      | Some es, Some es' => Some (es ++ es')
      | _, _ => None
      end
  end.

(** The entries of a document; [None] when opening or reading it raises. *)
Definition document_lines (pdf_path : PdfFile) : option (list Entry) :=
  match pdf_path with
  | Some pdf => pages_lines 0 (pages pdf)
  | None => None
  end.

(** What the second pass does with an entry, read off the histogram's keys
    [sizes]. *)
Definition line_of (e : Entry) : pystr := strip (e_text e).

Definition is_heading_entry (sizes : list Q) (e : Entry) : bool :=
  negb (str_not (line_of e) || (len (line_of e) >? 100)%Z)
  && accepts (line_of e) (e_size e) (e_font e) (average_of sizes).

Definition large_enough (sizes : list Q) (e : Entry) : bool :=
  match largest_of sizes with
  | None => false
  | Some largest => Qgeb (e_size e) (0.95 * largest)
  end.

Definition heading_of (sizes : list Q) (e : Entry) : Heading :=
  {| h_text := line_of e; h_page := e_page e;
     h_level := level_of (e_size e) (largest_of sizes) |}.

(** The first heading that is large enough and does not read "Untitled". *)
Definition title_of (sizes : list Q) (es : list Entry) : pystr :=
  match find (fun e => is_heading_entry sizes e && large_enough sizes e
                       && negb (str_eqb (line_of e) Untitled)) es with
  | Some e => line_of e
  | None => Untitled
  end.

Definition outline_of (sizes : list Q) (es : list Entry) : list Heading :=
  map (heading_of sizes) (filter (is_heading_entry sizes) es).
End Reading.

(** ** Documents for the concrete runs *)

(** The characters of a line of text, one record for each, all with the same
    size, font and vertical position. *)
Fixpoint chars_of (text : string) (size : Q) (fontname : string) (top : Q) : list Char :=
  match text with
  | EmptyString => []
  | String c text' =>
      {| c_text := Some [N_of_ascii c]; c_size := Some size;
         c_fontname := Some (py fontname); c_top := Some top |}
      :: chars_of text' size fontname top
  end.

(** One page: a line that reads "Untitled", a line that reads "Introduction",
    both at 20 points, and body text at 10 points. *)
Definition untitled_pdf : Pdf :=
  {| pages :=
       [ {| chars := Some (chars_of "Untitled" 20.0 "Arial" 50.0
                           ++ chars_of "Introduction" 20.0 "Arial" 80.0
                           ++ chars_of "the body of the text." 10.0 "Arial" 110.0) |} ] |}.

Definition untitled_lines : list Entry :=
  match document_lines (U := ascii_unicode) (Some untitled_pdf) with
  | Some es => es
  | None => []
  end.

(** Two pages: the first has a heading, the second a character whose
    position cannot be read. *)
Definition broken_pdf : Pdf :=
  {| pages :=
       [ {| chars := Some (chars_of "Summary" 20.0 "Arial" 50.0) |};
         {| chars := Some [ {| c_text := Some (py "x"); c_size := Some 10.0;
                               c_fontname := None; c_top := None |} ] |} ] |}.

(** One page with one character of size 0.04. *)
Definition tiny_pdf : Pdf :=
  {| pages := [ {| chars := Some (chars_of "x" 0.04 "Arial" 50.0) |} ] |}.

(** ** Counting and ordering, to state what the histogram and the levels do *)

(** How many of the observations [obs] equal [x]. *)
Definition occurrences (x : Q) (obs : list Q) : Z :=
  len (filter (fun y => Qeq_bool y x) obs).

(** The levels from the lowest to the highest: "H3", "H2", "H1"; any other
    string counts as the lowest. *)
Definition level_rank (level : pystr) : nat :=
  if str_eqb level H1 then 2%nat
  else if str_eqb level H2 then 1%nat
  else 0%nat.

(** ** The lines of a page, to state what [lines_by_font] holds *)

(** The character falls on the line of key [k]: its rounded position equals
    [k]. *)
Definition same_line (k : Q) (c : Char) : bool :=
  match c_top c with
  | Some top => Qeq_bool (py_round1 top) k
  | None => false
  end.

(** The rounded positions of the characters, in the order of the stream. *)
Definition line_tops (cs : list Char) : list Q :=
  flat_map (fun c => match c_top c with
                     | Some top => [py_round1 top]
                     | None => []
                     end) cs.

(** The entry whose size and font come from the character [c]. *)
Definition entry_from (page_num : Z) (c : Char) (text : pystr) : Entry :=
  {| e_text := text;
     e_size := match c_size c with Some s => py_round1 s | None => 0 end;
     e_font := match c_fontname c with Some f => f | None => py "" end;
     e_page := (page_num + 1)%Z |}.

Section LineText.
Context {U : Unicode}.

Definition stripped_text (c : Char) : pystr :=
  match c_text c with
  | Some text => strip text
  | None => []
  end.

(** The stripped texts of the characters on the line of key [k], joined in
    the order of the stream. *)
Definition line_text (k : Q) (cs : list Char) : pystr :=
  List.concat (map stripped_text (filter (same_line k) cs)).
End LineText.

(** Characters of three runs: "ab" at 50.0, "c" at 80.0, and "d" at 50.04,
    which rounds to 50.0, in another size and font. *)
Definition mixed_chars : list Char :=
  chars_of "ab" 20.0 "Arial" 50.0
  ++ chars_of "c" 10.0 "Times" 80.0
  ++ chars_of "d" 12.0 "Arial-Bold" 50.04.

Section WordLimits.
Context {U : Unicode}.

(** The first character, if there is one, is not whitespace. *)
Definition starts_unspaced (s : pystr) : Prop :=
  match s with
  | [] => True
  | c :: _ => ch_isspace c = false
  end.

(** The accepting tests of [_is_heading] without their limits on the number
    of words. *)
Definition accepts_whatever_the_words
    (line : pystr) (font_size : Q) (font_name : pystr) (avg : Q) : bool :=
  starts_with_keyword line
  || numbered_pattern line
  || isupper line
  || istitle line
  || Qgeb font_size avg
  || negb (str_find (str_lower font_name) (py "bold") =? -1)%Z.
End WordLimits.

(** ** [run.py]: the directory and the files written *)

(** [s.rfind(c)] for a one-character [c]: the index of its last occurrence,
    or -1; [i] is the index of the head of [s] and [found] the last
    occurrence before it. *)
Fixpoint rfind_from (i : Z) (c : N) (s : pystr) (found : Z) : Z :=
  match s with
  | [] => found
  | a :: s' => rfind_from (i + 1)%Z c s' (if (a =? c)%N then i else found)
  end.

Definition rfind (c : N) (s : pystr) : Z := rfind_from 0%Z c s (-1)%Z.

(** [s[i:j]] for indices that are not negative. *)
Definition slice (i j : Z) (s : pystr) : pystr :=
  firstn (Z.to_nat j - Z.to_nat i) (skipn (Z.to_nat i) s).

(** [os.path.splitext(p)[0]] of [posixpath]: the path without its extension.
    The extension starts at the last period, when that period comes after the
    last separator and after a character of the last component that is not a
    period. *)
Definition splitext_root (p : pystr) : pystr :=
  let sepIndex := rfind (ch "/") p in
  let dotIndex := rfind (ch ".") p in
  if (dotIndex >? sepIndex)%Z
     && existsb (fun a => negb (a =? ch ".")%N) (slice (sepIndex + 1) dotIndex p)
  then slice 0 dotIndex p
  else p.

(** The object that [save_to_json] hands to [json.dump]. *)
Record JsonResult := {
  j_title : pystr;
  j_outline : list Heading
}.

(** [save_to_json]: the object it builds from [title] and [self.headings];
    the caller below records under which name it is written. *)
Definition save_to_json (self : HeadingExtractor) (title : pystr) : JsonResult :=
  {| j_title := title; j_outline := headings self |}.

Section Directory.
Context {U : Unicode}.

(** What [pdfplumber.open] gives for [os.path.join(input_dir, filename)]. *)
Variable open_pdf : pystr -> PdfFile.

(** Whether the file of this name in [output_dir] can be opened for writing
    and written. *)
Variable can_write : pystr -> bool.

(** The test of line 23. *)
Definition is_pdf_name (filename : pystr) : bool :=
  endswith (str_lower filename) (py ".pdf").

(** Line 25. *)
Definition output_filename (filename : pystr) : pystr :=
  splitext_root filename ++ py ".json".

(** The loop of [process_pdfs], lines 22 to 37, on the names that
    [os.listdir] gives: [written] lists the files written so far, by their
    names in [output_dir], in the order of the writes; an exception of
    [save_to_json] is not caught and ends the loop. *)
Fixpoint process_pdfs_writing
    (listing : list pystr) (extractor : HeadingExtractor)
    (written : list (pystr * JsonResult)) (processed_files : list pystr)
  : outcome (list pystr) * list (pystr * JsonResult) :=
  match listing with
  | [] => (Returned processed_files, written)
  | filename :: listing' =>
      if is_pdf_name filename then
        match extract_headings (open_pdf filename) extractor with
        | (Returned (title, hs), extractor') =>
            match hs with
            | [] => process_pdfs_writing listing' extractor' written processed_files
            | _ =>
                if can_write (output_filename filename) then
                  process_pdfs_writing listing' extractor'
                    (written ++ [(output_filename filename,
                                  save_to_json extractor' title)])
                    (processed_files ++ [filename])
                else (Raised, written)
            end
        | (Raised, _) => (Raised, written)
        end
      else process_pdfs_writing listing' extractor written processed_files
  end.

(** What a fresh extractor returns for the file of this name. *)
Definition fresh_result (filename : pystr) : pystr * list Heading :=
  match fst (extract_headings (open_pdf filename) __init__) with
  | Returned r => r
  | Raised => (Untitled, [])
  end.

(** The file has the name of a PDF and an outline that is not empty. *)
Definition has_outline (filename : pystr) : bool :=
  is_pdf_name filename
  && match snd (fresh_result filename) with [] => false | _ => true end.
End Directory.

(** A directory of four names: a document with headings, a text file, a
    document whose second page cannot be read, and a file that is no PDF. *)
Definition example_listing : list pystr :=
  [py "a.pdf"; py "notes.txt"; py "b.PDF"; py "c.pdf"].

Definition example_open (filename : pystr) : PdfFile :=
  if str_eqb filename (py "a.pdf") then Some untitled_pdf
  else if str_eqb filename (py "b.PDF") then Some broken_pdf
  else None.

(** ** The arithmetic of the methods in binary64

    The three methods that compute with sizes, on Python's floats as they
    are: IEEE 754 binary64 with round to nearest, ties to even.  [*], [+],
    [/], [<=] and [==] are the primitive operations of that format; a literal
    such as [0.9] denotes the nearest binary64 value, as it does in Python.
    [sum] adds from the left starting at 0, as the builtin does on floats in
    CPython up to 3.11.  The methods only read the object, so they are
    functions of it.  A histogram whose keys include a NaN is outside what
    the statements below cover: the code counts a size only when it is
    positive, and a NaN is not. *)

#[local] Set Warnings "-inexact-float".

Module Binary64.

Definition dict (V : Type) := list (float * V).

Section Dict.
Context {V : Type}.

(** [d.get(k)] *)
Fixpoint dict_get (k : float) (d : dict V) : option V :=
  match d with
  | [] => None
  | (k', v) :: d' => if (k' =? k)%float then Some v else dict_get k d'
  end.

(** [d[k] = v] *)
Fixpoint dict_set (k : float) (v : V) (d : dict V) : dict V :=
  match d with
  | [] => [(k, v)]
  | (k', v') :: d' =>
      if (k' =? k)%float then (k', v) :: d' else (k', v') :: dict_set k v d'
  end.

Definition keys (d : dict V) : list float := map fst d.
End Dict.

(** [sorted(l, reverse=True)] on floats that are not NaN. *)
Fixpoint insert_desc (x : float) (l : list float) : list float :=
  match l with
  | [] => [x]
  | y :: l' => if (y <=? x)%float then x :: l else y :: insert_desc x l'
  end.

Definition sorted_reverse (l : list float) : list float := fold_right insert_desc [] l.

(** [sum(l)] *)
Definition sum (l : list float) : float := fold_left PrimFloat.add l 0%float.

(** [len(l)] as the float that [/] divides by. *)
Definition float_len {A} (l : list A) : float :=
  PrimFloat.of_uint63 (Uint63.of_Z (len l)).

Record HeadingExtractor := {
  headings : list Heading;
  size_thresholds : dict Z
}.

(** The counting statement of lines 40 to 43 and 107 to 110. *)
Definition count_size (self : HeadingExtractor) (size : float) : HeadingExtractor :=
  {| headings := headings self;
     size_thresholds :=
       match dict_get size (size_thresholds self) with
       | None => dict_set size 1%Z (size_thresholds self)
       | Some n => dict_set size (n + 1)%Z (size_thresholds self)
       end |}.

(** [_get_average_font_size] *)
Definition _get_average_font_size (self : HeadingExtractor) : float :=
  match size_thresholds self with
  | [] => 12.0%float
  | _ =>
      let sizes := keys (size_thresholds self) in
      (sum sizes / float_len sizes)%float
  end.

(** [_determine_level] *)
Definition _determine_level (self : HeadingExtractor) (size : float) : pystr :=
  match size_thresholds self with
  | [] => H3
  | _ =>
      match sorted_reverse (keys (size_thresholds self)) with
      | [] => H3
      | largest :: _ =>
          let threshold_h1 := (largest * 0.9)%float in
          let threshold_h2 := (largest * 0.8)%float in
          if (threshold_h1 <=? size)%float then H1
          else if (threshold_h2 <=? size)%float then H2
          else H3
      end
  end.

(** [_get_title_threshold] *)
Definition _get_title_threshold (self : HeadingExtractor) : float :=
  match size_thresholds self with
  | [] => 18.0%float
  | _ =>
      match sorted_reverse (keys (size_thresholds self)) with
      | [] => 18.0%float
      | largest :: _ => (largest * 0.95)%float
      end
  end.

(** The distinct sizes of a sequence of observations, in the order of their
    first occurrence. *)
Definition add_distinct (seen : list float) (x : float) : list float :=
  if existsb (fun k => (k =? x)%float) seen then seen else seen ++ [x].

Definition distinct_sizes (obs : list float) : list float :=
  fold_left add_distinct obs [].

(** [k] is a key and no key is larger. *)
Definition is_largest (k : float) (l : list float) : Prop :=
  In k l /\ forall k', In k' l -> (k' <=? k)%float = true.

(** The histogram {10.0: 5, 20.0: 1}. *)
Definition two_sizes : HeadingExtractor :=
  {| headings := []; size_thresholds := [(10.0%float, 5%Z); (20.0%float, 1%Z)] |}.
End Binary64.

(** * Properties *)

(** ** Comparisons *)

Lemma Qgtb_true (x y : Q) : Qgtb x y = true <-> y < x.
Proof.
  unfold Qgtb, Qltb. rewrite negb_true_iff.
  split; intro H.
  - apply Qnot_le_lt. intro Hle. apply Qle_bool_iff in Hle. congruence.
  - destruct (Qle_bool x y) eqn:E; [|reflexivity].
    apply Qle_bool_iff in E. exfalso. exact (Qlt_not_le _ _ H E).
Qed.

Lemma Qgtb_false (x y : Q) : Qgtb x y = false <-> x <= y.
Proof.
  unfold Qgtb, Qltb. rewrite negb_false_iff. apply Qle_bool_iff.
Qed.

Lemma Qgeb_true (x y : Q) : Qgeb x y = true <-> y <= x.
Proof. unfold Qgeb. apply Qle_bool_iff. Qed.

Lemma Qgeb_false (x y : Q) : Qgeb x y = false <-> x < y.
Proof.
  unfold Qgeb. split; intro H.
  - apply Qnot_le_lt. intro Hle. apply Qle_bool_iff in Hle. congruence.
  - destruct (Qle_bool y x) eqn:E; [|reflexivity].
    apply Qle_bool_iff in E. exfalso. exact (Qlt_not_le _ _ H E).
Qed.

Lemma Qgeb_compat (x x' y y' : Q) : x == x' -> y == y' -> Qgeb x y = Qgeb x' y'.
Proof.
  intros Hx Hy. destruct (Qgeb x' y') eqn:E.
  - apply Qgeb_true. apply Qgeb_true in E. rewrite Hx, Hy. exact E.
  - apply Qgeb_false. apply Qgeb_false in E. rewrite Hx, Hy. exact E.
Qed.

(** ** The methods, run *)

Lemma count_size_run (size : Q) (self : HeadingExtractor) :
  count_size size self
  = (Returned tt, with_thresholds (counted size (size_thresholds self)) self).
Proof.
  unfold count_size, counted, bind, get_size_thresholds.
  destruct (dict_get size (size_thresholds self)); reflexivity.
Qed.

Lemma get_average_font_size_run (self : HeadingExtractor) :
  _get_average_font_size self = (Returned (average (size_thresholds self)), self).
Proof.
  unfold _get_average_font_size, average, bind, get_size_thresholds.
  destruct (size_thresholds self); reflexivity.
Qed.

Lemma with_thresholds_same (self : HeadingExtractor) :
  with_thresholds (size_thresholds self) self = self.
Proof. destruct self; reflexivity. Qed.

Section MethodRuns.
Context {U : Unicode}.

Lemma is_heading_run (line : pystr) (font_size : Q) (font_name : pystr)
      (self : HeadingExtractor) :
  _is_heading line font_size font_name self
  = if str_not line || (len line >? 100)%Z then (Returned false, self)
    else
      let d := recorded font_size (size_thresholds self) in
      (Returned (accepts line font_size font_name (average d)),
       with_thresholds d self).
Proof.
  unfold _is_heading, accepts, recorded.
  destruct (str_not line || (len line >? 100)%Z); [reflexivity|].
  unfold bind at 1.
  assert (Hrec : (if Qgtb font_size 0 then count_size font_size else ret tt) self
                 = (Returned tt,
                    with_thresholds
                      (if Qgtb font_size 0
                       then counted font_size (size_thresholds self)
                       else size_thresholds self) self)).
  { destruct (Qgtb font_size 0).
    - apply count_size_run.
    - unfold ret. rewrite with_thresholds_same. reflexivity. }
  rewrite Hrec. cbv zeta.
  set (self1 := with_thresholds _ self).
  destruct (starts_with_keyword line); [reflexivity|].
  destruct (numbered_pattern line); [reflexivity|].
  destruct (isupper line && (len (str_split line) <=? 6)%Z); [reflexivity|].
  destruct (istitle line && (len (str_split line) <=? 8)%Z); [reflexivity|].
  unfold bind at 1. unfold and_then.
  destruct (len (str_split line) <=? 5)%Z; cbn [andb orb].
  - unfold bind at 1. rewrite get_average_font_size_run.
    unfold ret at 1. subst self1. cbn [size_thresholds with_thresholds].
    destruct (Qgeb font_size _); [reflexivity|].
    destruct (negb _ && _); [reflexivity|].
    destruct (form_field line); reflexivity.
  - unfold ret at 1.
    destruct (negb _ && _); [reflexivity|].
    destruct (form_field line); reflexivity.
Qed.
End MethodRuns.

Section HeadingRules.
Context {U : Unicode}.

Lemma is_heading_without_form_field_rule_run
      (line : pystr) (font_size : Q) (font_name : pystr) (self : HeadingExtractor) :
  _is_heading_without_form_field_rule line font_size font_name self
  = if str_not line || (len line >? 100)%Z then (Returned false, self)
    else
      let d := recorded font_size (size_thresholds self) in
      (Returned (accepts line font_size font_name (average d)),
       with_thresholds d self).
Proof.
  unfold _is_heading_without_form_field_rule, accepts, recorded.
  destruct (str_not line || (len line >? 100)%Z); [reflexivity|].
  unfold bind at 1.
  destruct (Qgtb font_size 0).
  - rewrite count_size_run.
    destruct (starts_with_keyword line); [reflexivity|].
    destruct (numbered_pattern line); [reflexivity|].
    destruct (isupper line && _); [reflexivity|].
    destruct (istitle line && _); [reflexivity|].
    unfold bind, and_then.
    destruct (len (str_split line) <=? 5)%Z; cbn [andb orb].
    + rewrite get_average_font_size_run. unfold ret.
      cbn [size_thresholds with_thresholds].
      destruct (Qgeb font_size _); [reflexivity|].
      destruct (negb _ && _); reflexivity.
    + unfold ret. destruct (negb _ && _); reflexivity.
  - unfold ret at 1. rewrite with_thresholds_same.
    destruct (starts_with_keyword line); [reflexivity|].
    destruct (numbered_pattern line); [reflexivity|].
    destruct (isupper line && _); [reflexivity|].
    destruct (istitle line && _); [reflexivity|].
    unfold bind, and_then.
    destruct (len (str_split line) <=? 5)%Z; cbn [andb orb].
    + rewrite get_average_font_size_run. unfold ret.
      destruct (Qgeb font_size _); [reflexivity|].
      destruct (negb _ && _); reflexivity.
    + unfold ret. destruct (negb _ && _); reflexivity.
Qed.

(** The length test of line 35, as a proposition. *)
Lemma length_test_passes (line : pystr) :
  line <> [] -> (len line <= 100)%Z ->
  str_not line || (len line >? 100)%Z = false.
Proof.
  intros Hne Hlen. apply orb_false_iff. split.
  - destruct line; [congruence | reflexivity].
  - rewrite Z.gtb_ltb. apply Z.ltb_ge. exact Hlen.
Qed.

Lemma startswith_app (k rest : pystr) : startswith (k ++ rest) k = true.
Proof.
  induction k as [|c k IH]; simpl.
  - destruct rest; reflexivity.
  - rewrite N.eqb_refl. exact IH.
Qed.

Lemma starts_with_keyword_true (lang : pystr) (patterns : list pystr) (k rest : pystr) :
  In (lang, patterns) heading_patterns -> In k patterns ->
  starts_with_keyword (k ++ rest) = true.
Proof.
  intros Hl Hk. unfold starts_with_keyword.
  apply existsb_exists. exists patterns. split.
  - apply in_map_iff. exists (lang, patterns). split; [reflexivity | exact Hl].
  - apply existsb_exists. exists k. split; [exact Hk | apply startswith_app].
Qed.

(** C10. The rule against form fields (a colon and no final period) changes
    nothing: [_is_heading] and the method without lines 69 to 71 return the
    same value and leave the same object, on every input. *)
Theorem form_field_rule_is_inert
        (line : pystr) (font_size : Q) (font_name : pystr) (self : HeadingExtractor) :
  _is_heading line font_size font_name self
  = _is_heading_without_form_field_rule line font_size font_name self.
Proof.
  rewrite is_heading_run, is_heading_without_form_field_rule_run. reflexivity.
Qed.

(** C7. A line that is not empty, has at most 100 characters and starts
    with a keyword of one of the language lists is a heading, whatever
    follows the keyword and whatever the size, the font and the histogram. *)
Theorem keyword_line_is_heading
        (lang : pystr) (patterns : list pystr) (k rest : pystr)
        (font_size : Q) (font_name : pystr) (self : HeadingExtractor) :
  In (lang, patterns) heading_patterns -> In k patterns ->
  k ++ rest <> [] -> (len (k ++ rest) <= 100)%Z ->
  fst (_is_heading (k ++ rest) font_size font_name self) = Returned true.
Proof.
  intros Hl Hk Hne Hlen.
  rewrite is_heading_run, (length_test_passes _ Hne Hlen).
  cbv zeta. cbn [fst]. unfold accepts.
  rewrite (starts_with_keyword_true lang patterns k rest Hl Hk).
  reflexivity.
Qed.
End HeadingRules.

(** ** The numbered rule *)

Section NumberedRule.
Context {U : Unicode}.

Lemma isdigit_true (s : pystr) :
  isdigit s = true <-> s <> [] /\ Forall (fun c => ch_isdigit c = true) s.
Proof.
  unfold isdigit. destruct s as [|c s].
  - split; [discriminate | intros [H _]; congruence].
  - rewrite forallb_forall, Forall_forall. split.
    + intro H. split; [discriminate | exact H].
    + intros [_ H]. exact H.
Qed.

Lemma str_in_true (c : N) (s : pystr) : str_in c s = true <-> In c s.
Proof.
  unfold str_in. rewrite existsb_exists. split.
  - intros [x [Hx E]]. apply N.eqb_eq in E. subst x. exact Hx.
  - intro H. exists c. split; [exact H | apply N.eqb_refl].
Qed.

Lemma lstrip_no_space (s : pystr) :
  Forall (fun c => ch_isspace c = false) s -> lstrip s = s.
Proof.
  intros H. destruct H as [|c s Hc Hs]; [reflexivity|].
  simpl. rewrite Hc. reflexivity.
Qed.

Lemma strip_no_space (s : pystr) :
  Forall (fun c => ch_isspace c = false) s -> strip s = s.
Proof.
  intros H. unfold strip. rewrite (lstrip_no_space s H).
  rewrite lstrip_no_space.
  - apply rev_involutive.
  - apply Forall_rev. exact H.
Qed.

(** C2, as the code has it.  For a line that is not empty and has at most
    100 characters, the test of the numbered rule holds exactly when the
    first six characters, stripped of the whitespace at their two ends and
    then of their periods, are a non-empty string of digits and there is a
    period among the six; when it holds, [_is_heading] returns true; and
    where the six characters hold no whitespace the test is the one the
    specification words, without the stripping. *)
Theorem numbered_rule
        (line : pystr) (font_size : Q) (font_name : pystr) (self : HeadingExtractor) :
  line <> [] -> (len line <= 100)%Z ->
  (numbered_pattern line = true
   <-> (str_remove (ch ".") (strip (slice_to 6 line)) <> []
        /\ Forall (fun c => ch_isdigit c = true)
                  (str_remove (ch ".") (strip (slice_to 6 line)))
        /\ In (ch ".") (slice_to 6 line)))
  /\ (numbered_pattern line = true ->
      fst (_is_heading line font_size font_name self) = Returned true)
  /\ (Forall (fun c => ch_isspace c = false) (slice_to 6 line) ->
      numbered_pattern line = numbered_prefix_as_specified line).
Proof.
  intros Hne Hlen. split; [|split].
  - unfold numbered_pattern. rewrite andb_true_iff, isdigit_true, str_in_true.
    tauto.
  - intro Hnum. rewrite is_heading_run, (length_test_passes _ Hne Hlen).
    cbv zeta. cbn [fst]. unfold accepts. rewrite Hnum.
    rewrite orb_true_r. reflexivity.
  - intro Hsp. unfold numbered_pattern, numbered_prefix_as_specified.
    rewrite (strip_no_space _ Hsp). reflexivity.
Qed.
End NumberedRule.

(** C2, witness: the line "1.1". *)
Lemma numbered_rule_witness :
  @numbered_pattern ascii_unicode (py "1.1") = true
  /\ fst (@_is_heading ascii_unicode (py "1.1") 10.0 (py "") __init__) = Returned true.
Proof.
  assert (Hne : py "1.1" <> []) by discriminate.
  assert (Hlen : (len (py "1.1") <= 100)%Z) by (vm_compute; discriminate).
  pose proof (@numbered_rule ascii_unicode (py "1.1") 10.0 (py "") __init__ Hne Hlen)
    as [_ [Haccept _]].
  split; [reflexivity | apply Haccept; reflexivity].
Defined.

(** C2, counterexample: in "1.    scope" the six characters are "1." and four
    spaces.  Without their periods they are not digits, so the condition as
    specified fails; the code strips them first, its test holds, and the line
    is a heading although no other rule accepts it. *)
Lemma numbered_rule_counterexample :
  @numbered_prefix_as_specified ascii_unicode (py "1.    scope") = false
  /\ @numbered_pattern ascii_unicode (py "1.    scope") = true
  /\ @starts_with_keyword (py "1.    scope") = false
  /\ @isupper ascii_unicode (py "1.    scope") = false
  /\ @istitle ascii_unicode (py "1.    scope") = false
  /\ Qgeb 10.0 (average (recorded 10.0 [(30.0, 1%Z)])) = false
  /\ str_find (@str_lower ascii_unicode (py "")) (py "bold") = (-1)%Z
  /\ fst (@_is_heading ascii_unicode (py "1.    scope") 10.0 (py "")
            {| headings := []; size_thresholds := [(30.0, 1%Z)] |})
     = Returned true.
Proof. repeat split; vm_compute; reflexivity. Qed.

(** ** The largest size and the levels *)

Lemma is_largest_unique (m m' : Q) (l : list Q) :
  is_largest m l -> is_largest m' l -> m == m'.
Proof.
  intros [Hin Hmax] [Hin' Hmax']. apply Qle_antisym; auto.
Qed.

Lemma sorted_reverse_head (l : list Q) :
  match sorted_reverse l with
  | [] => l = []
  | h :: _ => is_largest h l
  end.
Proof.
  induction l as [|a l IH]; [reflexivity|].
  cbn [sorted_reverse fold_right]. fold (sorted_reverse l).
  destruct (sorted_reverse l) as [|h t]; cbn [insert_desc].
  - subst l. split; [left; reflexivity|].
    intros x [Hx|[]]. subst x. apply Qle_refl.
  - destruct IH as [Hin Hmax].
    destruct (Qle_bool h a) eqn:E.
    + apply Qle_bool_iff in E. split; [left; reflexivity|].
      intros x [Hx|Hx]; [subst x; apply Qle_refl|].
      apply Qle_trans with h; auto.
    + split; [right; exact Hin|].
      intros x [Hx|Hx]; [subst x | auto].
      apply Qlt_le_weak. apply Qnot_le_lt. intro Hle.
      apply Qle_bool_iff in Hle. congruence.
Qed.

Lemma fold_Qmax_largest (l : list Q) (x : Q) :
  is_largest (fold_left Qmax l x) (x :: l).
Proof.
  revert x. induction l as [|a l IH]; intro x; cbn [fold_left].
  - split; [left; reflexivity|]. intros y [Hy|[]]. subst y. apply Qle_refl.
  - destruct (IH (Qmax x a)) as [Hin Hmax]. unfold Qmax in *.
    destruct (Qle_bool x a) eqn:E.
    + split.
      * destruct Hin as [Hin|Hin]; [right; left; exact Hin | right; right; exact Hin].
      * intros y [Hy|[Hy|Hy]].
        -- subst y. apply Qle_bool_iff in E.
           apply Qle_trans with a; [exact E | apply Hmax; left; reflexivity].
        -- subst y. apply Hmax. left. reflexivity.
        -- apply Hmax. right. exact Hy.
    + split.
      * destruct Hin as [Hin|Hin]; [left; exact Hin | right; right; exact Hin].
      * intros y [Hy|[Hy|Hy]].
        -- subst y. apply Hmax. left. reflexivity.
        -- subst y. apply Qle_trans with x; [|apply Hmax; left; reflexivity].
           apply Qlt_le_weak. apply Qnot_le_lt. intro Hle.
           apply Qle_bool_iff in Hle. congruence.
        -- apply Hmax. right. exact Hy.
Qed.

(** The largest observed size is an observed size that no observed size
    exceeds, and there is one as soon as the histogram is not empty. *)
Lemma largest_of_spec (l : list Q) :
  match largest_of l with
  | None => l = []
  | Some m => is_largest m l
  end.
Proof.
  destruct l as [|x l]; [reflexivity|]. apply fold_Qmax_largest.
Qed.

(** The first element of the sorted keys is the largest observed size. *)
Lemma sorted_reverse_largest (l : list Q) :
  match sorted_reverse l, largest_of l with
  | [], None => True
  | h :: _, Some m => h == m
  | _, _ => False
  end.
Proof.
  pose proof (sorted_reverse_head l) as Hs.
  pose proof (largest_of_spec l) as Hm.
  destruct (sorted_reverse l) as [|h t], (largest_of l) as [m|].
  - subst l. destruct Hm as [[] _].
  - exact I.
  - eapply is_largest_unique; eassumption.
  - subst l. destruct Hs as [[] _].
Qed.

Lemma determine_level_run (size : Q) (self : HeadingExtractor) :
  _determine_level size self
  = (Returned (level_of size (largest_observed (size_thresholds self))), self).
Proof.
  unfold _determine_level, bind, get_size_thresholds, largest_observed.
  pose proof (sorted_reverse_largest (keys (size_thresholds self))) as H.
  destruct (size_thresholds self) as [|kv d] eqn:Ed; [reflexivity|].
  destruct (sorted_reverse (keys (kv :: d))) as [|h t],
           (largest_of (keys (kv :: d))) as [m|]; try contradiction.
  - reflexivity.
  - cbv zeta. unfold level_of.
    rewrite (Qgeb_compat size size (h * 0.9) (0.9 * m)),
            (Qgeb_compat size size (h * 0.8) (0.8 * m));
      try reflexivity; try (rewrite H; apply Qmult_comm).
    destruct (Qgeb size (0.9 * m)); [reflexivity|].
    destruct (Qgeb size (0.8 * m)); reflexivity.
Qed.

(** ** The histogram and the average *)

Lemma keys_dict_set {V} (k : Q) (v : V) (d : dict V) :
  keys (dict_set k v d) = add_distinct (keys d) k.
Proof.
  unfold add_distinct. induction d as [|[k' v'] d IH]; [reflexivity|].
  cbn [dict_set keys map fst existsb].
  destruct (Qeq_bool k' k); cbn [orb]; [reflexivity|].
  cbn [map fst]. fold (keys (dict_set k v d)). rewrite IH. fold (keys d).
  destruct (existsb _ (keys d)); reflexivity.
Qed.

Lemma keys_counted (size : Q) (d : dict Z) :
  keys (counted size d) = add_distinct (keys d) size.
Proof.
  unfold counted. destruct (dict_get size d); apply keys_dict_set.
Qed.

Lemma for_each_count_size_run (obs : list Q) (self : HeadingExtractor) :
  for_each obs count_size self
  = (Returned tt,
     with_thresholds (fold_left (fun d x => counted x d) obs (size_thresholds self)) self).
Proof.
  revert self. induction obs as [|x obs IH]; intro self.
  - cbn. rewrite with_thresholds_same. reflexivity.
  - cbn [for_each fold_left]. unfold bind. rewrite count_size_run, IH.
    reflexivity.
Qed.

Lemma keys_fold_counted (obs : list Q) (d : dict Z) :
  keys (fold_left (fun d x => counted x d) obs d) = fold_left add_distinct obs (keys d).
Proof.
  revert d. induction obs as [|x obs IH]; intro d; [reflexivity|].
  cbn [fold_left]. rewrite IH, keys_counted. reflexivity.
Qed.

Lemma existsb_Qeq_InA (x : Q) (l : list Q) :
  existsb (fun k => Qeq_bool k x) l = true <-> InA Qeq x l.
Proof.
  rewrite existsb_exists, InA_alt. split.
  - intros [k [Hk E]]. exists k. split; [|exact Hk].
    apply Qeq_bool_iff in E. symmetry. exact E.
  - intros [k [E Hk]]. exists k. split; [exact Hk|].
    apply Qeq_bool_iff. symmetry. exact E.
Qed.

Lemma add_distinct_spec (seen : list Q) (x : Q) :
  NoDupA Qeq seen ->
  NoDupA Qeq (add_distinct seen x)
  /\ InA Qeq x (add_distinct seen x)
  /\ (forall y, In y seen -> In y (add_distinct seen x))
  /\ (forall y, In y (add_distinct seen x) -> In y seen \/ y = x).
Proof.
  intro Hnd. unfold add_distinct.
  destruct (existsb (fun k => Qeq_bool k x) seen) eqn:E.
  - apply existsb_Qeq_InA in E. repeat split; auto.
  - assert (Hnot : ~ InA Qeq x seen).
    { intro H. apply existsb_Qeq_InA in H. congruence. }
    repeat split.
    + apply NoDupA_app; [exact Q_Setoid | exact Hnd | |].
      * constructor; [intro H; inversion H | constructor].
      * intros y Hy Hyx. apply Hnot.
        inversion Hyx as [? ? Eyx|? ? H]; subst; [|inversion H].
        apply InA_eqA with y; [exact Q_Setoid | exact Eyx | exact Hy].
    + apply InA_app_iff. right. left. reflexivity.
    + intros y Hy. apply in_or_app. left. exact Hy.
    + intros y Hy. apply in_app_or in Hy. destruct Hy as [Hy|[Hy|[]]]; auto.
Qed.

Lemma fold_add_distinct_spec (obs seen : list Q) :
  NoDupA Qeq seen ->
  NoDupA Qeq (fold_left add_distinct obs seen)
  /\ (forall x, In x obs -> InA Qeq x (fold_left add_distinct obs seen))
  /\ (forall y, In y seen -> In y (fold_left add_distinct obs seen))
  /\ (forall y, In y (fold_left add_distinct obs seen) -> In y seen \/ In y obs).
Proof.
  revert seen. induction obs as [|a obs IH]; intros seen Hnd; cbn [fold_left].
  - repeat split; auto. intros x [].
  - destruct (add_distinct_spec seen a Hnd) as [Hnd' [Ha [Hkeep Hfrom]]].
    destruct (IH _ Hnd') as [H1 [H2 [H3 H4]]].
    repeat split; auto.
    + intros x [Hx|Hx]; [subst x | auto].
      apply InA_alt in Ha. destruct Ha as [y [E Hy]].
      apply InA_alt. exists y. split; [exact E | apply H3; exact Hy].
    + intros y Hy. destruct (H4 y Hy) as [H|H]; [|right; right; exact H].
      destruct (Hfrom y H) as [H'|H']; [left; exact H' | right; left; congruence].
Qed.

(** ** Rounding *)

Lemma round_half_even_nonpos (y : Q) : y <= 0 -> (round_half_even y <= 0)%Z.
Proof.
  intro Hy. unfold round_half_even.
  assert (Hf : (Qfloor y <= 0)%Z).
  { change 0%Z with (Qfloor 0). apply Qfloor_resp_le. exact Hy. }
  destruct (Z.eq_dec (Qfloor y) 0) as [E|E].
  - rewrite E.
    assert (Hlt : y - inject_Z 0 < 1 # 2).
    { change (inject_Z 0) with 0. lra. }
    destruct (Qcompare_spec (y - inject_Z 0) (1 # 2)) as [Hc|Hc|Hc];
      [lra | reflexivity | lra].
  - destruct (Qcompare _ _); try lia. destruct (Z.even _); lia.
Qed.

Lemma py_round1_positive (x : Q) : 0 < py_round1 x -> 0 < x.
Proof.
  intro H. apply Qnot_le_lt. intro Hx.
  assert (Hy : x * 10 <= 0).
  { lra. }
  pose proof (round_half_even_nonpos _ Hy) as Hr.
  unfold py_round1, Qlt in H. cbn in H. lia.
Qed.

Lemma round_half_even_integer (k : Z) : round_half_even (Qmake k 10 * 10) = k.
Proof.
  unfold round_half_even.
  assert (E : Qmake k 10 * 10 == inject_Z k).
  { unfold Qeq, inject_Z. cbn. lia. }
  assert (Hf : Qfloor (Qmake k 10 * 10) = k).
  { rewrite (Qfloor_comp _ _ E). apply Qfloor_Z. }
  rewrite Hf.
  assert (Hlt : Qmake k 10 * 10 - inject_Z k < 1 # 2).
  { rewrite E. setoid_replace (inject_Z k - inject_Z k) with 0 by ring. reflexivity. }
  destruct (Qcompare_spec (Qmake k 10 * 10 - inject_Z k) (1 # 2)) as [Hc|Hc|Hc];
    [lra | reflexivity | lra].
Qed.

(** A size already rounded to one decimal place is left as it is. *)
Lemma py_round1_idempotent (x : Q) : py_round1 (py_round1 x) = py_round1 x.
Proof.
  unfold py_round1. rewrite round_half_even_integer. reflexivity.
Qed.

(** ** Dictionaries *)

Lemma Forall_values_dict_set {V} (P : V -> Prop) (k : Q) (v : V) (d : dict V) :
  Forall P (values d) -> P v -> Forall P (values (dict_set k v d)).
Proof.
  intros Hd Hv. induction d as [|[k' v'] d IH]; cbn.
  - constructor; [exact Hv | constructor].
  - inversion Hd as [|? ? Hv' Hd']; subst.
    destruct (Qeq_bool k' k); cbn; constructor; auto.
Qed.

Lemma Forall_values_dict_modify {V} (P : V -> Prop) (k : Q) (f : V -> V) (d : dict V) :
  Forall P (values d) -> (forall v, P v -> P (f v)) ->
  Forall P (values (dict_modify k f d)).
Proof.
  intros Hd Hf. induction d as [|[k' v'] d IH]; cbn.
  - constructor.
  - inversion Hd as [|? ? Hv' Hd']; subst.
    destruct (Qeq_bool k' k); cbn; constructor; auto.
Qed.

(** The key that line 132 reads is there: line 125 has just put it. *)
Lemma dict_in_after_set {V} (k : Q) (v : V) (d : dict V) :
  dict_in k (if negb (dict_in k d) then dict_set k v d else d) = true.
Proof.
  destruct (dict_in k d) eqn:E; cbn [negb]; [exact E|].
  unfold dict_in in *. induction d as [|[k' v'] d IH]; cbn in *.
  - rewrite (proj2 (Qeq_bool_iff k k) (Qeq_refl k)). reflexivity.
  - destruct (Qeq_bool k' k) eqn:Ek; cbn; rewrite Ek; [reflexivity|].
    apply IH. exact E.
Qed.

(** ** The two passes on a document that can be read *)

Lemma title_threshold_run (self : HeadingExtractor) :
  exists threshold,
    _get_title_threshold self = (Returned threshold, self)
    /\ forall size,
        Qgeb size threshold = reaches_title_threshold size (size_thresholds self).
Proof.
  unfold _get_title_threshold, bind, get_size_thresholds,
         reaches_title_threshold, largest_observed.
  pose proof (sorted_reverse_largest (keys (size_thresholds self))) as H.
  destruct (size_thresholds self) as [|kv d] eqn:Ed.
  - eexists. split; reflexivity.
  - destruct (sorted_reverse (keys (kv :: d))) as [|h t],
             (largest_of (keys (kv :: d))) as [m|]; try contradiction.
    + eexists. split; reflexivity.
    + eexists. split; [reflexivity|]. intro size.
      apply Qgeb_compat; [reflexivity|]. rewrite H. apply Qmult_comm.
Qed.

Section Passes.
Context {U : Unicode}.

Lemma group_char_run (page_num : Z) (lines : dict Entry) (c : Char)
      (self : HeadingExtractor) :
  group_char page_num lines c self
  = (match group_char_view page_num lines c with
     | Some lines' => Returned lines'
     | None => Raised
     end, self).
Proof.
  unfold group_char, group_char_view, bind, item.
  destruct (c_size c), (c_text c), (c_top c); reflexivity.
Qed.

Lemma assemble_run (page_num : Z) (cs : list Char) (lines : dict Entry)
      (self : HeadingExtractor) :
  for_each_with cs lines (group_char page_num) self
  = (match assemble_from page_num lines cs with
     | Some lines' => Returned lines'
     | None => Raised
     end, self).
Proof.
  revert lines. induction cs as [|c cs IH]; intro lines; [reflexivity|].
  cbn [for_each_with assemble_from]. unfold bind. rewrite group_char_run.
  destruct (group_char_view page_num lines c); [apply IH | reflexivity].
Qed.

Lemma assemble_from_Forall (P : Entry -> Prop) (page_num : Z) (cs : list Char) :
  (forall t e, P e -> P (add_text t e)) ->
  (forall c s font page,
      In c cs -> c_size c = Some s ->
      P {| e_text := py ""; e_size := py_round1 s; e_font := font; e_page := page |}) ->
  forall lines lines',
    Forall P (values lines) ->
    assemble_from page_num lines cs = Some lines' ->
    Forall P (values lines').
Proof.
  intros Hadd. induction cs as [|c cs IH]; intros Hnew lines lines' Hl Hrun.
  - cbn in Hrun. congruence.
  - cbn [assemble_from] in Hrun.
    destruct (group_char_view page_num lines c) as [lines1|] eqn:E; [|discriminate].
    apply (IH (fun c' s font page Hc => Hnew c' s font page (or_intror Hc))
              lines1 lines'); [|exact Hrun].
    unfold group_char_view in E.
    destruct (c_size c) as [s|] eqn:Es; [|discriminate].
    destruct (c_text c), (c_top c); try discriminate.
    injection E as <-.
    apply Forall_values_dict_modify; [|intros v Hv; apply Hadd; exact Hv].
    destruct (negb (dict_in _ lines)); [|exact Hl].
    apply Forall_values_dict_set; [exact Hl|].
    apply (Hnew c s); [left; reflexivity | exact Es].
Qed.

(** The first pass on the characters of a page that can be read. *)
Lemma first_pass_chars_run (page_num : Z) (cs : list Char) (lines lines' : dict Entry)
      (self : HeadingExtractor) :
  assemble_from page_num lines cs = Some lines' ->
  for_each cs (fun char =>
    char_size <- item (c_size char) ;;
    if Qgtb char_size 0 then count_size (py_round1 char_size) else ret tt) self
  = (Returned tt,
     with_thresholds
       (fold_left (fun d x => counted x d) (char_sizes cs) (size_thresholds self))
       self).
Proof.
  revert lines self. induction cs as [|c cs IH]; intros lines self Hrun.
  - cbn. rewrite with_thresholds_same. reflexivity.
  - cbn [assemble_from] in Hrun.
    destruct (group_char_view page_num lines c) as [lines1|] eqn:E; [|discriminate].
    unfold group_char_view in E.
    destruct (c_size c) as [s|] eqn:Es; [|discriminate]. clear E.
    cbn [for_each char_sizes flat_map]. rewrite Es.
    unfold bind at 1. unfold bind at 1. cbn [item]. unfold ret at 1.
    destruct (Qgtb s 0).
    + rewrite count_size_run, (IH lines1 _ Hrun). reflexivity.
    + unfold ret at 1. rewrite (IH lines1 _ Hrun). reflexivity.
Qed.
End Passes.

Section Classification.
Context {U : Unicode}.

(** One turn of the loop of line 134, on any object. *)
Lemma classify_entry_run (title : pystr) (e : Entry) (self : HeadingExtractor) :
  classify_entry title e self
  = if str_not (line_of e) || (len (line_of e) >? 100)%Z then (Returned title, self)
    else
      let d := recorded (e_size e) (size_thresholds self) in
      if accepts (line_of e) (e_size e) (e_font e) (average d)
      then (Returned (if str_eqb title Untitled
                         && reaches_title_threshold (e_size e) d
                      then line_of e else title),
            {| headings :=
                 headings self
                 ++ [{| h_text := line_of e; h_page := e_page e;
                        h_level := level_of (e_size e) (largest_observed d) |}];
               size_thresholds := d |})
      else (Returned title, with_thresholds d self).
Proof.
  unfold classify_entry, line_of. cbv zeta.
  destruct (str_not (strip (e_text e)) || (len (strip (e_text e)) >? 100)%Z) eqn:Egate;
    [reflexivity|].
  unfold bind at 1. rewrite is_heading_run, Egate. cbv zeta.
  destruct (accepts _ _ _ _); [|reflexivity].
  unfold bind at 1. rewrite determine_level_run.
  cbn [size_thresholds with_thresholds].
  unfold bind at 1, and_then.
  destruct (title_threshold_run
              (with_thresholds (recorded (e_size e) (size_thresholds self)) self))
    as [threshold [Hrun Hcmp]].
  cbn [size_thresholds with_thresholds] in Hcmp.
  destruct (str_eqb title Untitled); cbn [andb].
  - unfold bind at 1. rewrite Hrun. unfold ret at 1. rewrite Hcmp.
    reflexivity.
  - reflexivity.
Qed.

(** The loop of line 134 returns, whatever the entries and the object. *)
Lemma classify_entries_return (es : list Entry) (title : pystr) (self : HeadingExtractor) :
  exists title' self',
    for_each_with es title classify_entry self = (Returned title', self').
Proof.
  revert title self. induction es as [|e es IH]; intros title self.
  - eexists. eexists. reflexivity.
  - cbn [for_each_with]. unfold bind. rewrite classify_entry_run.
    destruct (str_not _ || _); [apply IH|]. cbv zeta.
    destruct (accepts _ _ _ _); apply IH.
Qed.

(** A title that does not read "Untitled" stays through a turn of the loop. *)
Lemma classify_entry_keeps_title (title : pystr) (e : Entry) (self : HeadingExtractor) :
  title <> Untitled -> fst (classify_entry title e self) = Returned title.
Proof.
  intro Hset. rewrite classify_entry_run.
  destruct (str_not _ || _); [reflexivity|]. cbv zeta.
  destruct (accepts _ _ _ _); [|reflexivity].
  cbn [fst]. unfold str_eqb.
  destruct (list_eq_dec N.eq_dec title Untitled); [contradiction | reflexivity].
Qed.

Lemma classify_entries_keep_title (es : list Entry) (title : pystr) (self : HeadingExtractor) :
  title <> Untitled ->
  fst (for_each_with es title classify_entry self) = Returned title.
Proof.
  intro Hset. revert self. induction es as [|e es IH]; intro self; [reflexivity|].
  cbn [for_each_with]. unfold bind.
  pose proof (classify_entry_keeps_title title e self Hset) as H.
  destruct (classify_entry title e self) as [[t|] self']; cbn [fst] in H;
    [|discriminate].
  injection H as ->. apply IH.
Qed.
End Classification.

Lemma for_each_with_app {A B} (l1 l2 : list A) (local : B) (body : B -> A -> M B)
      (self : HeadingExtractor) :
  for_each_with (l1 ++ l2) local body self
  = bind (for_each_with l1 local body) (fun local' => for_each_with l2 local' body) self.
Proof.
  revert local self. induction l1 as [|x l1 IH]; intros local self; [reflexivity|].
  cbn [app for_each_with]. unfold bind.
  destruct (body local x self) as [[local'|] self']; [|reflexivity].
  rewrite IH. reflexivity.
Qed.

Lemma str_eqb_true (a b : pystr) : str_eqb a b = true <-> a = b.
Proof.
  unfold str_eqb. destruct (list_eq_dec N.eq_dec a b); split; congruence.
Qed.

Lemma average_keys (d : dict Z) : average d = average_of (keys d).
Proof. destruct d; reflexivity. Qed.

Lemma keys_recorded (size : Q) (d : dict Z) :
  covered (keys d) size -> keys (recorded size d) = keys d.
Proof.
  intro Hc. unfold recorded. destruct (Qgtb size 0) eqn:E; [|reflexivity].
  apply Qgtb_true in E. rewrite keys_counted. unfold add_distinct.
  rewrite (proj2 (existsb_Qeq_InA size (keys d)) (Hc E)). reflexivity.
Qed.

Section SecondPass.
Context {U : Unicode}.

(** What [is_heading_entry] reads off the keys is what [_is_heading] returns
    on any object whose histogram has these keys, for an entry whose size
    is not positive or is among them. *)
Lemma is_heading_entry_run (sizes : list Q) (e : Entry) (self : HeadingExtractor) :
  keys (size_thresholds self) = sizes ->
  covered sizes (e_size e) ->
  fst (_is_heading (line_of e) (e_size e) (e_font e) self)
  = Returned (is_heading_entry sizes e)
  /\ keys (size_thresholds (snd (_is_heading (line_of e) (e_size e) (e_font e) self)))
     = sizes.
Proof.
  intros Hkeys Hcov. rewrite is_heading_run. unfold is_heading_entry.
  destruct (str_not (line_of e) || (len (line_of e) >? 100)%Z);
    cbn [negb andb fst snd]; [split; [reflexivity | exact Hkeys]|].
  cbv zeta. cbn [fst snd size_thresholds with_thresholds].
  rewrite average_keys, keys_recorded, Hkeys; [split; reflexivity|].
  rewrite Hkeys. exact Hcov.
Qed.

Lemma title_of_cons (sizes : list Q) (e : Entry) (es : list Entry) :
  title_of sizes (e :: es)
  = if is_heading_entry sizes e && large_enough sizes e
       && negb (str_eqb (line_of e) Untitled)
    then line_of e else title_of sizes es.
Proof.
  unfold title_of. cbn [find].
  destruct (is_heading_entry sizes e && large_enough sizes e
            && negb (str_eqb (line_of e) Untitled)); reflexivity.
Qed.

(** The loop of line 134 on entries whose sizes the first pass has counted:
    the keys of the histogram stay, and title and headings are read off
    them. *)
Lemma classify_entries_run (sizes : list Q) (es : list Entry) :
  Forall (fun e => covered sizes (e_size e)) es ->
  forall title self,
    keys (size_thresholds self) = sizes ->
    exists d',
      keys d' = sizes
      /\ for_each_with es title classify_entry self
         = (Returned (if str_eqb title Untitled then title_of sizes es else title),
            {| headings := headings self ++ outline_of sizes es;
               size_thresholds := d' |}).
Proof.
  induction 1 as [|e es He Hes IH]; intros title self Hkeys.
  - exists (size_thresholds self). split; [exact Hkeys|].
    unfold for_each_with, ret, outline_of, title_of. cbn [filter map find].
    rewrite app_nil_r. destruct self; cbn [headings size_thresholds].
    destruct (str_eqb title Untitled) eqn:Et; [|reflexivity].
    apply str_eqb_true in Et. rewrite Et. reflexivity.
  - cbn [for_each_with]. unfold bind. rewrite classify_entry_run.
    rewrite title_of_cons. unfold outline_of. cbn [filter].
    assert (Hhe : is_heading_entry sizes e
                  = negb (str_not (line_of e) || (len (line_of e) >? 100)%Z)
                    && accepts (line_of e) (e_size e) (e_font e) (average_of sizes))
      by reflexivity.
    rewrite Hhe. clear Hhe.
    destruct (str_not (line_of e) || (len (line_of e) >? 100)%Z) eqn:Egate;
      cbn [negb andb].
    { apply IH. exact Hkeys. }
    cbv zeta.
    assert (Hk : keys (recorded (e_size e) (size_thresholds self)) = sizes).
    { rewrite keys_recorded; [exact Hkeys | rewrite Hkeys; exact He]. }
    rewrite average_keys, Hk.
    destruct (accepts (line_of e) (e_size e) (e_font e) (average_of sizes)) eqn:Eacc.
    + assert (Hlarge : reaches_title_threshold
                         (e_size e) (recorded (e_size e) (size_thresholds self))
                       = large_enough sizes e).
      { unfold reaches_title_threshold, large_enough, largest_observed.
        rewrite Hk. pose proof (largest_of_spec sizes) as Hs.
        destruct (largest_of sizes); [reflexivity|].
        apply Qgeb_false. apply Qnot_le_lt. intro Hle.
        assert (Hpos : 0 < e_size e) by lra.
        specialize (He Hpos). rewrite Hs in He. inversion He. }
      rewrite Hlarge. unfold largest_observed. rewrite Hk.
      match goal with
      | |- context [for_each_with es ?t classify_entry ?s] =>
          destruct (IH t s Hk) as [d' [Hd' Hrun]]
      end.
      exists d'. split; [exact Hd'|]. rewrite Hrun.
      cbn [headings map]. rewrite <- app_assoc. cbn [app].
      fold (heading_of sizes e). fold (outline_of sizes es).
      f_equal.
      destruct (str_eqb title Untitled) eqn:Et; cbn [andb].
      * destruct (large_enough sizes e); cbn [andb]; [|rewrite Et; reflexivity].
        destruct (str_eqb (line_of e) Untitled); reflexivity.
      * rewrite Et. reflexivity.
    + cbn [andb].
      destruct (IH title
                   (with_thresholds (recorded (e_size e) (size_thresholds self)) self)
                   Hk) as [d' [Hd' Hrun]].
      exists d'. split; [exact Hd'|]. rewrite Hrun. reflexivity.
Qed.
End SecondPass.

(** From [pages_lines i (p :: ps) = Some es]: the entries of [p] and those
    of [ps]. *)
Ltac read_pages Hes es1 es2 E1 E2 :=
  cbn [pages_lines] in Hes;
  match type of Hes with
  | match page_lines ?i ?p with _ => _ end = Some _ =>
      destruct (page_lines i p) as [es1|] eqn:E1; [|discriminate Hes]
  end;
  match type of Hes with
  | match pages_lines ?i ?ps with _ => _ end = Some _ =>
      destruct (pages_lines i ps) as [es2|] eqn:E2; [|discriminate Hes]
  end.

Section WholeDocument.
Context {U : Unicode}.

Lemma page_body_run (i : nat) (p : Page) (title : pystr) (self : HeadingExtractor) :
  page_body title (Z.of_nat i, p) self
  = match page_lines i p with
    | Some es => for_each_with es title classify_entry self
    | None => (Raised, self)
    end.
Proof.
  unfold page_body, page_lines, bind, item.
  destruct (chars p) as [cs|]; [|reflexivity].
  unfold ret at 1. rewrite assemble_run.
  destruct (assemble_from (Z.of_nat i) [] cs); reflexivity.
Qed.

(** On a document that can be read the second pass is the loop of line 134
    on the entries of all pages. *)
Lemma second_pass_pages_run (ps : list Page) (i : nat) (es : list Entry)
      (title : pystr) (self : HeadingExtractor) :
  pages_lines i ps = Some es ->
  for_each_with (combine (map Z.of_nat (seq i (List.length ps))) ps) title page_body self
  = for_each_with es title classify_entry self.
Proof.
  revert i es title self. induction ps as [|p ps IH]; intros i es title self Hes.
  - cbn in Hes. injection Hes as <-. reflexivity.
  - read_pages Hes es1 es2 E1 E2.
    injection Hes as <-.
    cbn [List.length seq map combine for_each_with].
    rewrite for_each_with_app. unfold bind.
    rewrite page_body_run, E1.
    destruct (for_each_with es1 title classify_entry self) as [[title'|] self'];
      [|reflexivity].
    apply IH. exact E2.
Qed.

(** If the second pass returns, every page could be read. *)
Lemma second_pass_pages_returned (ps : list Page) (i : nat)
      (title title' : pystr) (self self' : HeadingExtractor) :
  for_each_with (combine (map Z.of_nat (seq i (List.length ps))) ps) title page_body self
  = (Returned title', self') ->
  pages_lines i ps <> None.
Proof.
  revert i title self. induction ps as [|p ps IH]; intros i title self Hrun.
  - discriminate.
  - cbn [List.length seq map combine for_each_with] in Hrun.
    unfold bind in Hrun. rewrite page_body_run in Hrun.
    cbn [pages_lines].
    destruct (page_lines i p) as [es1|]; [|discriminate].
    destruct (for_each_with es1 title classify_entry self) as [[t1|] self1];
      [|discriminate].
    specialize (IH _ _ _ Hrun).
    destruct (pages_lines (S i) ps); [discriminate | contradiction].
Qed.

Lemma first_pass_pages_run (ps : list Page) (i : nat) (es : list Entry)
      (self : HeadingExtractor) :
  pages_lines i ps = Some es ->
  for_each ps (fun page =>
    page_chars <- item (chars page) ;;
    for_each page_chars (fun char =>
      char_size <- item (c_size char) ;;
      if Qgtb char_size 0 then count_size (py_round1 char_size) else ret tt)) self
  = (Returned tt,
     with_thresholds
       (fold_left (fun d x => counted x d) (flat_map page_sizes ps) (size_thresholds self))
       self).
Proof.
  revert i es self. induction ps as [|p ps IH]; intros i es self Hes.
  - cbn. rewrite with_thresholds_same. reflexivity.
  - read_pages Hes es1 es2 E1 E2.
    unfold page_lines in E1.
    cbn [for_each flat_map]. unfold page_sizes at 1.
    destruct (chars p) as [cs|]; [|discriminate].
    destruct (assemble_from (Z.of_nat i) [] cs) as [lines|] eqn:Ea; [|discriminate].
    unfold bind at 1. unfold bind at 1. cbn [item]. unfold ret at 1.
    rewrite (first_pass_chars_run _ _ _ _ _ Ea), (IH _ _ _ E2).
    rewrite fold_left_app. reflexivity.
Qed.

Lemma page_lines_covered (i : nat) (p : Page) (es : list Entry) :
  page_lines i p = Some es ->
  Forall (fun e => 0 < e_size e -> In (e_size e) (page_sizes p)) es.
Proof.
  unfold page_lines, page_sizes. destruct (chars p) as [cs|]; [|discriminate].
  destruct (assemble_from (Z.of_nat i) [] cs) as [lines|] eqn:Ea; [|discriminate].
  intro H. injection H as <-.
  apply (assemble_from_Forall
           (fun e => 0 < e_size e -> In (e_size e) (char_sizes cs))
           (Z.of_nat i) cs) with (lines := []); auto.
  - intros c s font page Hc Hs. cbn [e_size]. intro Hpos.
    apply py_round1_positive in Hpos. unfold char_sizes.
    apply in_flat_map. exists c. split; [exact Hc|]. rewrite Hs.
    rewrite (proj2 (Qgtb_true s 0) Hpos). left. reflexivity.
Qed.

Lemma pages_lines_covered (ps : list Page) (i : nat) (es : list Entry) :
  pages_lines i ps = Some es ->
  Forall (fun e => 0 < e_size e -> In (e_size e) (flat_map page_sizes ps)) es.
Proof.
  revert i es. induction ps as [|p ps IH]; intros i es Hes.
  - cbn in Hes. injection Hes as <-. constructor.
  - read_pages Hes es1 es2 E1 E2.
    injection Hes as <-. cbn [flat_map]. apply Forall_app. split.
    + eapply Forall_impl; [|apply (page_lines_covered _ _ _ E1)].
      intros e He Hpos. apply in_or_app. left. auto.
    + eapply Forall_impl; [|apply (IH _ _ E2)].
      intros e He Hpos. apply in_or_app. right. auto.
Qed.
End WholeDocument.

(** ** [extract_headings] *)

Section Extraction.
Context {U : Unicode}.

(** The state in which the [try] block starts. *)
Lemma extract_headings_unfold (pdf_path : PdfFile) (self : HeadingExtractor) :
  extract_headings pdf_path self
  = try_except (try_block pdf_path Untitled) (ret (Untitled, [])) __init__.
Proof. reflexivity. Qed.

(** On a document that can be read, [extract_headings] returns the title
    and the outline that the entries and the distinct sizes determine. *)
Lemma extract_headings_run (pdf : Pdf) (es : list Entry) (self : HeadingExtractor) :
  document_lines (Some pdf) = Some es ->
  fst (extract_headings (Some pdf) self)
  = Returned (title_of (document_keys pdf) es, outline_of (document_keys pdf) es).
Proof.
  intro Hes. cbn [document_lines] in Hes.
  rewrite extract_headings_unfold.
  unfold try_except, try_block, first_pass, second_pass.
  unfold bind at 1. cbn [item]. unfold ret at 1.
  unfold bind at 1. rewrite (first_pass_pages_run _ _ _ _ Hes).
  unfold bind at 1. rewrite (second_pass_pages_run _ _ _ _ _ Hes).
  cbn [size_thresholds __init__].
  assert (Hcov : Forall (fun e => covered (document_keys pdf) (e_size e)) es).
  { eapply Forall_impl; [|apply (pages_lines_covered _ _ _ Hes)].
    intros e He Hpos. unfold document_keys, distinct_sizes.
    apply (fold_add_distinct_spec (document_sizes pdf) [] (NoDupA_nil Qeq)).
    apply He. exact Hpos. }
  destruct (classify_entries_run (document_keys pdf) es Hcov Untitled
              (with_thresholds
                 (fold_left (fun d x => counted x d) (flat_map page_sizes (pages pdf)) [])
                 __init__))
    as [d' [Hd' Hrun]].
  { cbn [size_thresholds with_thresholds]. rewrite keys_fold_counted. reflexivity. }
  rewrite Hrun. unfold bind, get_headings, ret. cbn [fst headings with_thresholds __init__ app].
  rewrite (proj2 (str_eqb_true Untitled Untitled) eq_refl). reflexivity.
Qed.

(** The [try] block raises exactly on the documents that cannot be opened
    or read. *)
Lemma try_block_raises (pdf_path : PdfFile) (title : pystr) (self : HeadingExtractor) :
  fst (try_block pdf_path title self) = Raised <-> document_lines pdf_path = None.
Proof.
  unfold try_block. destruct pdf_path as [pdf|]; cbn [document_lines item].
  2: { split; reflexivity. }
  unfold bind at 1. unfold ret at 1. unfold bind at 1.
  split.
  - intro Hr. destruct (pages_lines 0 (pages pdf)) as [es|] eqn:Hes; [|reflexivity].
    exfalso. unfold first_pass in Hr. rewrite (first_pass_pages_run _ _ _ _ Hes) in Hr.
    unfold bind at 1 in Hr. unfold second_pass in Hr.
    rewrite (second_pass_pages_run _ _ _ _ _ Hes) in Hr.
    destruct (classify_entries_return es title
                (with_thresholds
                   (fold_left (fun d x => counted x d)
                              (flat_map page_sizes (pages pdf)) (size_thresholds self))
                   self)) as [t' [s' Hrun]].
    rewrite Hrun in Hr. discriminate Hr.
  - intro Hnone. destruct (first_pass pdf self) as [[[]|] self1]; [|reflexivity].
    unfold bind at 1. unfold second_pass.
    destruct (for_each_with _ title page_body self1) as [[t'|] self2] eqn:Hrun;
      [|reflexivity].
    exfalso. exact (second_pass_pages_returned _ _ _ _ _ _ Hrun Hnone).
Qed.
End Extraction.

Section ExtractionResults.
Context {U : Unicode}.

(** C3. When the [try] block raises, which it does exactly on the documents
    that cannot be opened or read, [extract_headings] returns "Untitled"
    with an empty list, not the headings appended before the exception. *)
Theorem exception_gives_empty_result (pdf_path : PdfFile) (self : HeadingExtractor) :
  fst (try_block pdf_path Untitled __init__) = Raised ->
  fst (extract_headings pdf_path self) = Returned (Untitled, []).
Proof.
  intro Hr. rewrite extract_headings_unfold. unfold try_except.
  destruct (try_block pdf_path Untitled __init__) as [[r|] self'];
    [discriminate Hr | reflexivity].
Qed.

(** C8. [extract_headings] returns the same value and leaves the same
    object whatever the object held before the call; so the loop of
    [process_pdfs], with its one extractor, gets for each file what a fresh
    extractor returns, also for a file that comes after others. *)
Theorem no_cross_document_state :
  (forall pdf_path self self',
      extract_headings pdf_path self = extract_headings pdf_path self')
  /\ (forall files self,
        process_pdfs files self
        = map (fun pdf_path => fst (extract_headings pdf_path __init__)) files)
  /\ (forall before pdf_path,
        process_pdfs (before ++ [pdf_path]) __init__
        = process_pdfs before __init__
          ++ [fst (extract_headings pdf_path __init__)]).
Proof.
  assert (H1 : forall pdf_path self self',
             extract_headings pdf_path self = extract_headings pdf_path self').
  { intros. rewrite !extract_headings_unfold. reflexivity. }
  assert (H2 : forall files self,
             process_pdfs files self
             = map (fun pdf_path => fst (extract_headings pdf_path __init__)) files).
  { induction files as [|f files IH]; intro self; [reflexivity|].
    cbn [process_pdfs map]. rewrite (H1 f self __init__).
    destruct (extract_headings f __init__) as [r self']. cbn [fst].
    rewrite IH. reflexivity. }
  split; [exact H1 | split; [exact H2|]].
  intros before pdf_path. rewrite !H2, map_app. reflexivity.
Qed.

Lemma pages_lines_no_chars (ps : list Page) (i : nat) :
  Forall (fun page => chars page = Some []) ps -> pages_lines i ps = Some [].
Proof.
  intro H. revert i. induction H as [|p ps Hp Hps IH]; intro i; [reflexivity|].
  cbn [pages_lines]. unfold page_lines. rewrite Hp, IH. reflexivity.
Qed.

(** C9. A document whose pages have no characters gives "Untitled" and an
    empty outline. *)
Theorem no_characters_no_headings (pdf : Pdf) (self : HeadingExtractor) :
  Forall (fun page => chars page = Some []) (pages pdf) ->
  fst (extract_headings (Some pdf) self) = Returned (Untitled, []).
Proof.
  intro H.
  rewrite (extract_headings_run pdf [] self (pages_lines_no_chars _ 0%nat H)).
  reflexivity.
Qed.
End ExtractionResults.

(** C3, witness: [broken_pdf].  Its first page has appended a heading to
    [self.headings] when the second page raises. *)
Lemma exception_gives_empty_result_witness :
  headings (snd (try_block (U := ascii_unicode) (Some broken_pdf) Untitled __init__))
  = [ {| h_text := py "Summary"; h_page := 1; h_level := H1 |} ]
  /\ fst (extract_headings (U := ascii_unicode) (Some broken_pdf) __init__)
     = Returned (Untitled, []).
Proof.
  split.
  - vm_compute. reflexivity.
  - apply (exception_gives_empty_result (U := ascii_unicode)). vm_compute. reflexivity.
Defined.

(** C9, witness: a document of two empty pages. *)
Lemma no_characters_no_headings_witness :
  fst (extract_headings (U := ascii_unicode)
         (Some {| pages := [ {| chars := Some [] |}; {| chars := Some [] |} ] |})
         __init__)
  = Returned (Untitled, []).
Proof.
  apply (no_characters_no_headings (U := ascii_unicode)).
  cbn [pages]. repeat constructor.
Defined.

(** C7, witness: "Chapter 1: Introduction" has a colon and no final period,
    and is a heading. *)
Lemma keyword_line_is_heading_witness :
  form_field (py "Chapter 1: Introduction") = true
  /\ fst (_is_heading (U := ascii_unicode) (py "Chapter 1: Introduction") 10.0 (py "")
            __init__)
     = Returned true.
Proof.
  split; [reflexivity|].
  apply (keyword_line_is_heading (U := ascii_unicode)
           (py "en")
           [py "Chapter"; py "Section"; py "Part"; py "Overview";
            py "Summary"; py "Conclusion"; py "Appendix"]
           (py "Chapter") (py " 1: Introduction")).
  - left. reflexivity.
  - left. reflexivity.
  - discriminate.
  - vm_compute. discriminate.
Defined.

(** ** What classification records *)

Lemma Qeq_bool_refl (k : Q) : Qeq_bool k k = true.
Proof. apply Qeq_bool_iff. reflexivity. Qed.

Lemma dict_get_set_same {V} (k : Q) (v : V) (d : dict V) :
  dict_get k (dict_set k v d) = Some v.
Proof.
  induction d as [|[k' v'] d IH]; cbn.
  - rewrite Qeq_bool_refl. reflexivity.
  - destruct (Qeq_bool k' k) eqn:E; cbn; rewrite E; [reflexivity | exact IH].
Qed.

Lemma dict_get_set_other {V} (k k0 : Q) (v : V) (d : dict V) :
  ~ k0 == k -> dict_get k0 (dict_set k v d) = dict_get k0 d.
Proof.
  intro Hne. induction d as [|[k' v'] d IH]; cbn.
  - destruct (Qeq_bool k k0) eqn:E; [|reflexivity].
    apply Qeq_bool_iff in E. exfalso. apply Hne. symmetry. exact E.
  - destruct (Qeq_bool k' k) eqn:E; cbn.
    + destruct (Qeq_bool k' k0) eqn:E0; [|reflexivity].
      apply Qeq_bool_iff in E. apply Qeq_bool_iff in E0.
      exfalso. apply Hne. rewrite <- E0. exact E.
    + destruct (Qeq_bool k' k0); [reflexivity | exact IH].
Qed.

Lemma dict_get_counted (size : Q) (d : dict Z) :
  dict_get size (counted size d)
  = Some match dict_get size d with Some n => (n + 1)%Z | None => 1%Z end.
Proof.
  unfold counted. destruct (dict_get size d); apply dict_get_set_same.
Qed.

Lemma dict_get_counted_other (size k : Q) (d : dict Z) :
  ~ k == size -> dict_get k (counted size d) = dict_get k d.
Proof.
  intro Hne. unfold counted.
  destruct (dict_get size d); apply dict_get_set_other; exact Hne.
Qed.

Lemma keys_counted_positive (size : Q) (d : dict Z) :
  0 < size -> Forall (fun k => 0 < k) (keys d) ->
  Forall (fun k => 0 < k) (keys (counted size d)).
Proof.
  intros Hs Hd. rewrite keys_counted. unfold add_distinct.
  destruct (existsb _ (keys d)); [exact Hd|].
  apply Forall_app. split; [exact Hd | constructor; [exact Hs | constructor]].
Qed.

Section Recording.
Context {U : Unicode}.

(** The entries of a page carry sizes already rounded to one decimal. *)
Lemma page_lines_rounded (i : nat) (p : Page) (es : list Entry) :
  page_lines i p = Some es ->
  Forall (fun e => py_round1 (e_size e) = e_size e) es.
Proof.
  unfold page_lines. destruct (chars p) as [cs|]; [|discriminate].
  destruct (assemble_from (Z.of_nat i) [] cs) as [lines|] eqn:Ea; [|discriminate].
  intro H. injection H as <-.
  apply (assemble_from_Forall
           (fun e => py_round1 (e_size e) = e_size e) (Z.of_nat i) cs)
    with (lines := []); auto.
  intros c s font page _ _. cbn [e_size]. apply py_round1_idempotent.
Qed.

(** C6, as the code has it.  Once the length test has passed,
    [_is_heading] returns a value and leaves the headings as they are; a
    size that is not positive leaves the histogram as it is; a positive
    size has its count, under the size as it was passed, set to one or
    raised by one, the other counts staying; so the keys stay positive if
    they were.  The method does not round: [extract_headings] passes it the
    size of an entry, which line 118 has rounded. *)
Theorem classification_records_size
        (line : pystr) (font_size : Q) (font_name : pystr) (self : HeadingExtractor) :
  line <> [] -> (len line <= 100)%Z ->
  (exists b, fst (_is_heading line font_size font_name self) = Returned b)
  /\ headings (snd (_is_heading line font_size font_name self)) = headings self
  /\ (font_size <= 0 ->
      size_thresholds (snd (_is_heading line font_size font_name self))
      = size_thresholds self)
  /\ (0 < font_size ->
      dict_get font_size
               (size_thresholds (snd (_is_heading line font_size font_name self)))
      = Some match dict_get font_size (size_thresholds self) with
             | Some n => (n + 1)%Z
             | None => 1%Z
             end
      /\ forall k,
          ~ k == font_size ->
          dict_get k (size_thresholds (snd (_is_heading line font_size font_name self)))
          = dict_get k (size_thresholds self))
  /\ (Forall (fun k => 0 < k) (keys (size_thresholds self)) ->
      Forall (fun k => 0 < k)
             (keys (size_thresholds (snd (_is_heading line font_size font_name self)))))
  /\ (forall i p es,
        page_lines i p = Some es ->
        Forall (fun e => py_round1 (e_size e) = e_size e) es).
Proof.
  intros Hne Hlen.
  rewrite is_heading_run, (length_test_passes _ Hne Hlen). cbv zeta.
  cbn [fst snd headings size_thresholds with_thresholds]. unfold recorded.
  split; [eexists; reflexivity|].
  split; [reflexivity|].
  split; [|split; [|split]].
  - intro Hs. rewrite (proj2 (Qgtb_false font_size 0) Hs). reflexivity.
  - intro Hs. rewrite (proj2 (Qgtb_true font_size 0) Hs). split.
    + apply dict_get_counted.
    + intros k Hk. apply dict_get_counted_other. exact Hk.
  - intro Hd. destruct (Qgtb font_size 0) eqn:E; [|exact Hd].
    apply keys_counted_positive; [apply Qgtb_true; exact E | exact Hd].
  - exact page_lines_rounded.
Qed.
End Recording.

(** C6, witness: the line "x" at 10.26 points on a fresh object; the key is
    10.26. *)
Lemma classification_records_size_witness :
  dict_get 10.26
    (size_thresholds
       (snd (_is_heading (U := ascii_unicode) (py "x") 10.26 (py "") __init__)))
  = Some 1%Z.
Proof.
  assert (Hne : py "x" <> []) by discriminate.
  assert (Hlen : (len (py "x") <= 100)%Z) by (vm_compute; discriminate).
  destruct (classification_records_size
              (U := ascii_unicode) (py "x") 10.26 (py "") __init__ Hne Hlen)
    as [_ [_ [_ [Hpos _]]]].
  assert (H : 0 < 10.26) by reflexivity.
  destruct (Hpos H) as [Hget _]. exact Hget.
Defined.

(** C6, counterexample: [_is_heading] given 10.26 counts it under 10.26,
    which is not 10.26 rounded to one decimal; and the histogram of
    [tiny_pdf], whose only character has size 0.04, has the key 0.0, which
    the first pass has put there and which is not positive. *)
Lemma classification_counterexample :
  keys (size_thresholds
          (snd (_is_heading (U := ascii_unicode) (py "x") 10.26 (py "") __init__)))
  = [10.26]
  /\ py_round1 10.26 = 10.3
  /\ ~ 10.26 == 10.3
  /\ keys (size_thresholds
             (snd (extract_headings (U := ascii_unicode) (Some tiny_pdf) __init__)))
     = [0.0]
  /\ ~ 0 < 0.0.
Proof.
  split; [vm_compute; reflexivity|].
  split; [vm_compute; reflexivity|].
  split; [intro H; vm_compute in H; discriminate H|].
  split; [vm_compute; reflexivity|].
  intro H. vm_compute in H. discriminate H.
Qed.

(** * More of the code *)

(** ** The length test, the levels and the title threshold *)

Section LengthTest.
Context {U : Unicode}.

(** X1. A line that is empty or has more than 100 characters is not a
    heading, whatever its size and its font, and [_is_heading] leaves the
    object as it is: the size of such a line is not counted. *)
Theorem is_heading_rejects_by_length
        (line : pystr) (font_size : Q) (font_name : pystr) (self : HeadingExtractor) :
  line = [] \/ (100 < len line)%Z ->
  _is_heading line font_size font_name self = (Returned false, self).
Proof.
  intro H. rewrite is_heading_run.
  assert (Hgate : str_not line || (len line >? 100)%Z = true).
  { destruct H as [-> | H]; [reflexivity|].
    apply orb_true_iff. right. rewrite Z.gtb_ltb. apply Z.ltb_lt. exact H. }
  rewrite Hgate. reflexivity.
Qed.
End LengthTest.

(** X1, witness: 101 capital letters in a bold font at 100 points. *)
Lemma is_heading_rejects_by_length_witness :
  _is_heading (U := ascii_unicode) (repeat 65%N 101) 100.0 (py "Arial-Bold") __init__
  = (Returned false, __init__).
Proof.
  apply (is_heading_rejects_by_length (U := ascii_unicode)).
  right. vm_compute. reflexivity.
Defined.

Lemma level_of_cases (size : Q) (largest : option Q) :
  level_of size largest = H1 \/ level_of size largest = H2 \/ level_of size largest = H3.
Proof.
  unfold level_of. destruct largest as [l|]; [|auto].
  destruct (Qgeb size (0.9 * l)); [auto|].
  destruct (Qgeb size (0.8 * l)); auto.
Qed.

Lemma level_of_monotone (size size' : Q) (largest : option Q) :
  size <= size' ->
  (level_rank (level_of size largest) <= level_rank (level_of size' largest))%nat.
Proof.
  intro Hle. unfold level_of. destruct largest as [l|]; [|apply Nat.le_refl].
  destruct (Qgeb size (0.9 * l)) eqn:E1.
  - apply Qgeb_true in E1.
    rewrite (proj2 (Qgeb_true size' (0.9 * l)) (Qle_trans _ _ _ E1 Hle)).
    apply Nat.le_refl.
  - destruct (Qgeb size (0.8 * l)) eqn:E2.
    + apply Qgeb_true in E2.
      destruct (Qgeb size' (0.9 * l)); [vm_compute; lia|].
      rewrite (proj2 (Qgeb_true size' (0.8 * l)) (Qle_trans _ _ _ E2 Hle)).
      apply Nat.le_refl.
    + destruct (Qgeb size' (0.9 * l)); [vm_compute; lia|].
      destruct (Qgeb size' (0.8 * l)); vm_compute; lia.
Qed.

(** X3. [_determine_level] returns one of "H1", "H2" and "H3", and on one
    histogram a larger size never gets a lower level. *)
Theorem determine_level_monotone (size size' : Q) (self : HeadingExtractor) :
  size <= size' ->
  exists level level',
    fst (_determine_level size self) = Returned level
    /\ fst (_determine_level size' self) = Returned level'
    /\ (level = H1 \/ level = H2 \/ level = H3)
    /\ (level' = H1 \/ level' = H2 \/ level' = H3)
    /\ (level_rank level <= level_rank level')%nat.
Proof.
  intro Hle. rewrite !determine_level_run. cbn [fst].
  eexists. eexists. split; [reflexivity|]. split; [reflexivity|].
  split; [apply level_of_cases|]. split; [apply level_of_cases|].
  apply level_of_monotone. exact Hle.
Qed.

(** X3, witness: 16.5 and 19.0 points on the histogram {10.0: 5, 20.0: 1}. *)
Lemma determine_level_monotone_witness :
  exists level level',
    fst (_determine_level 16.5
           {| headings := []; size_thresholds := [(10.0, 5%Z); (20.0, 1%Z)] |})
    = Returned level
    /\ fst (_determine_level 19.0
              {| headings := []; size_thresholds := [(10.0, 5%Z); (20.0, 1%Z)] |})
       = Returned level'
    /\ (level = H1 \/ level = H2 \/ level = H3)
    /\ (level' = H1 \/ level' = H2 \/ level' = H3)
    /\ (level_rank level <= level_rank level')%nat.
Proof.
  apply (determine_level_monotone 16.5 19.0). vm_compute. discriminate.
Defined.

(** ** The counts of the histogram *)

Lemma Qeq_bool_compat (y k k' : Q) : k == k' -> Qeq_bool y k = Qeq_bool y k'.
Proof.
  intro E. destruct (Qeq_bool y k') eqn:E'.
  - apply Qeq_bool_iff. apply Qeq_bool_iff in E'. rewrite E. exact E'.
  - destruct (Qeq_bool y k) eqn:E''; [|reflexivity].
    apply Qeq_bool_iff in E''. rewrite E in E''.
    apply Qeq_bool_iff in E''. congruence.
Qed.

Lemma dict_get_compat {V} (k k' : Q) (d : dict V) :
  k == k' -> dict_get k d = dict_get k' d.
Proof.
  intro E. induction d as [|[kk v] d IH]; [reflexivity|].
  cbn [dict_get]. rewrite (Qeq_bool_compat kk k k' E), IH. reflexivity.
Qed.

Lemma dict_get_set {V} (k k' : Q) (v : V) (d : dict V) :
  dict_get k (dict_set k' v d) = if Qeq_bool k' k then Some v else dict_get k d.
Proof.
  destruct (Qeq_bool k' k) eqn:E.
  - apply Qeq_bool_iff in E. rewrite <- (dict_get_compat k' k _ E).
    apply dict_get_set_same.
  - apply dict_get_set_other. intro H. symmetry in H.
    apply Qeq_bool_iff in H. congruence.
Qed.

Lemma dict_get_counted_any (x y : Q) (d : dict Z) :
  dict_get x (counted y d)
  = if Qeq_bool y x
    then Some match dict_get x d with Some n => (n + 1)%Z | None => 1%Z end
    else dict_get x d.
Proof.
  destruct (Qeq_bool y x) eqn:E.
  - apply Qeq_bool_iff in E.
    rewrite <- (dict_get_compat y x _ E), <- (dict_get_compat y x d E).
    apply dict_get_counted.
  - apply dict_get_counted_other. intro H. symmetry in H.
    apply Qeq_bool_iff in H. congruence.
Qed.

Lemma occurrences_nonneg (x : Q) (obs : list Q) : (0 <= occurrences x obs)%Z.
Proof. unfold occurrences, len. lia. Qed.

Lemma occurrences_cons (x y : Q) (obs : list Q) :
  occurrences x (y :: obs)
  = if Qeq_bool y x then (occurrences x obs + 1)%Z else occurrences x obs.
Proof.
  unfold occurrences, len. cbn [filter].
  destruct (Qeq_bool y x); [|reflexivity]. cbn [List.length]. lia.
Qed.

Lemma dict_get_fold_counted (obs : list Q) (x : Q) (d : dict Z) :
  dict_get x (fold_left (fun d y => counted y d) obs d)
  = match dict_get x d with
    | Some n => Some (n + occurrences x obs)%Z
    | None => if (occurrences x obs =? 0)%Z then None else Some (occurrences x obs)
    end.
Proof.
  revert d. induction obs as [|y obs IH]; intro d.
  - cbn [fold_left]. destruct (dict_get x d) as [n|]; [|reflexivity].
    f_equal. unfold occurrences, len. cbn. lia.
  - cbn [fold_left]. rewrite IH, dict_get_counted_any, occurrences_cons.
    pose proof (occurrences_nonneg x obs) as Hn.
    destruct (Qeq_bool y x).
    + destruct (dict_get x d) as [n|].
      * f_equal. lia.
      * destruct (occurrences x obs + 1 =? 0)%Z eqn:E0; [lia|].
        f_equal. lia.
    + reflexivity.
Qed.

Section FirstPass.
Context {U : Unicode}.

(** X4. On a document that can be read, the first pass returns and leaves a
    histogram in which the count of a size is the number of characters whose
    size is positive and rounds to it; a size no such character has is not a
    key; the headings are untouched. *)
Theorem first_pass_counts (pdf : Pdf) (es : list Entry) (self : HeadingExtractor) :
  document_lines (Some pdf) = Some es ->
  fst (first_pass pdf self) = Returned tt
  /\ headings (snd (first_pass pdf self)) = headings self
  /\ forall x,
      dict_get x (size_thresholds (snd (first_pass pdf self)))
      = match dict_get x (size_thresholds self) with
        | Some n => Some (n + occurrences x (document_sizes pdf))%Z
        | None =>
            if (occurrences x (document_sizes pdf) =? 0)%Z then None
            else Some (occurrences x (document_sizes pdf))
        end.
Proof.
  intro Hes. cbn [document_lines] in Hes. unfold first_pass.
  rewrite (first_pass_pages_run _ _ _ _ Hes).
  cbn [fst snd headings size_thresholds with_thresholds].
  split; [reflexivity|]. split; [reflexivity|].
  intro x. apply dict_get_fold_counted.
Qed.
End FirstPass.

(** X4, witness: [untitled_pdf] has 20 characters of 20 points and 21 of 10
    points. *)
Lemma first_pass_counts_witness :
  dict_get 20.0 (size_thresholds (snd (first_pass untitled_pdf __init__)))
  = Some 20%Z
  /\ dict_get 10.0 (size_thresholds (snd (first_pass untitled_pdf __init__)))
     = Some 21%Z
  /\ dict_get 15.0 (size_thresholds (snd (first_pass untitled_pdf __init__)))
     = None.
Proof.
  assert (Hes : document_lines (U := ascii_unicode) (Some untitled_pdf)
                = Some untitled_lines) by (vm_compute; reflexivity).
  destruct (first_pass_counts (U := ascii_unicode) untitled_pdf untitled_lines __init__ Hes)
    as [_ [_ Hget]].
  rewrite !Hget. vm_compute. repeat split.
Defined.

(** ** The lines of a page *)

Lemma dict_in_keys {V} (k : Q) (d : dict V) :
  dict_in k d = existsb (fun k' => Qeq_bool k' k) (keys d).
Proof.
  unfold dict_in. induction d as [|[k' v] d IH]; [reflexivity|].
  cbn [dict_get keys map fst existsb].
  destruct (Qeq_bool k' k); [reflexivity | exact IH].
Qed.

Lemma Qeq_bool_compat_l (y y' k : Q) : y == y' -> Qeq_bool y k = Qeq_bool y' k.
Proof.
  intro E. destruct (Qeq_bool y' k) eqn:E'.
  - apply Qeq_bool_iff. apply Qeq_bool_iff in E'. rewrite E. exact E'.
  - destruct (Qeq_bool y k) eqn:E''; [|reflexivity].
    apply Qeq_bool_iff in E''. rewrite E in E''.
    apply Qeq_bool_iff in E''. congruence.
Qed.

Lemma keys_dict_modify {V} (k : Q) (f : V -> V) (d : dict V) :
  keys (dict_modify k f d) = keys d.
Proof.
  induction d as [|[k' v] d IH]; [reflexivity|].
  cbn [dict_modify]. destruct (Qeq_bool k' k); cbn; [reflexivity|].
  f_equal. exact IH.
Qed.

Lemma dict_get_modify {V} (k k' : Q) (f : V -> V) (d : dict V) :
  dict_get k (dict_modify k' f d)
  = if Qeq_bool k' k then option_map f (dict_get k d) else dict_get k d.
Proof.
  induction d as [|[kk v] d IH].
  - cbn. destruct (Qeq_bool k' k); reflexivity.
  - cbn [dict_modify dict_get].
    destruct (Qeq_bool kk k') eqn:E1; cbn [dict_get].
    + apply Qeq_bool_iff in E1. rewrite <- (Qeq_bool_compat_l kk k' k E1).
      destruct (Qeq_bool kk k); reflexivity.
    + destruct (Qeq_bool kk k) eqn:E2; [|exact IH].
      destruct (Qeq_bool k' k) eqn:E3; [|reflexivity].
      apply Qeq_bool_iff in E2. apply Qeq_bool_iff in E3.
      assert (E : kk == k') by (rewrite E2, E3; reflexivity).
      apply Qeq_bool_iff in E. congruence.
Qed.

Lemma add_text_add_text (a b : pystr) (e : Entry) :
  add_text b (add_text a e) = add_text (a ++ b) e.
Proof. unfold add_text. cbn. rewrite app_assoc. reflexivity. Qed.

Section Lines.
Context {U : Unicode}.

Lemma assemble_from_lines (page_num : Z) (cs : list Char) :
  forall lines0 lines,
    assemble_from page_num lines0 cs = Some lines ->
    keys lines = fold_left add_distinct (line_tops cs) (keys lines0)
    /\ forall k,
        dict_get k lines
        = match dict_get k lines0 with
          | Some e0 => Some (add_text (line_text k cs) e0)
          | None =>
              match find (same_line k) cs with
              | Some c => Some (entry_from page_num c (line_text k cs))
              | None => None
              end
          end.
Proof.
  induction cs as [|c cs IH]; intros lines0 lines Hrun.
  - cbn in Hrun. injection Hrun as <-. split; [reflexivity|].
    intro k. cbn. destruct (dict_get k lines0) as [e0|]; [|reflexivity].
    unfold add_text. rewrite app_nil_r. destruct e0; reflexivity.
  - cbn [assemble_from] in Hrun.
    destruct (group_char_view page_num lines0 c) as [lines1|] eqn:E; [|discriminate].
    destruct (IH _ _ Hrun) as [Hkeys Hget]. clear IH Hrun.
    unfold group_char_view in E.
    destruct (c_size c) as [s|] eqn:Es; [|discriminate].
    destruct (c_text c) as [txt|] eqn:Et; [|discriminate].
    destruct (c_top c) as [top|] eqn:Etop; [|discriminate].
    injection E as <-.
    assert (Htops : line_tops (c :: cs) = py_round1 top :: line_tops cs).
    { unfold line_tops. cbn [flat_map]. rewrite Etop. reflexivity. }
    split.
    + rewrite Hkeys, Htops, keys_dict_modify. cbn [fold_left]. f_equal.
      rewrite dict_in_keys. unfold add_distinct.
      destruct (existsb _ (keys lines0)) eqn:Ein; cbn [negb]; [reflexivity|].
      rewrite keys_dict_set. unfold add_distinct. rewrite Ein. reflexivity.
    + intro k. rewrite Hget, dict_get_modify.
      unfold line_text, same_line. cbn [filter find]. rewrite Etop.
      fold (same_line k).
      destruct (Qeq_bool (py_round1 top) k) eqn:Ek.
      * apply Qeq_bool_iff in Ek. unfold dict_in.
        rewrite (dict_get_compat _ _ lines0 Ek).
        cbn [map List.concat].
        assert (Hst : stripped_text c = strip txt)
          by (unfold stripped_text; rewrite Et; reflexivity).
        rewrite Hst. fold (line_text k cs).
        destruct (dict_get k lines0) as [e0|] eqn:E0; cbn [negb].
        -- rewrite E0. cbn [option_map]. rewrite add_text_add_text. reflexivity.
        -- rewrite dict_get_set.
           rewrite (proj2 (Qeq_bool_iff _ _) Ek). cbn [option_map].
           rewrite add_text_add_text. unfold entry_from, add_text. cbn.
           rewrite Es. reflexivity.
      * fold (line_text k cs).
        destruct (negb (dict_in (py_round1 top) lines0)).
        -- rewrite dict_get_set, Ek. reflexivity.
        -- reflexivity.
Qed.

(** X5. The loop of line 117 on the characters of a page, when it returns:
    the object is untouched; the keys of [lines_by_font] are the distinct
    rounded positions in the order of their first character; and the entry
    under a key has the stripped texts of all characters on that line joined
    in the order of the stream, the rounded size and the font of the first
    of them, and the page number plus one. *)
Theorem lines_by_font_of_page
        (page_num : Z) (cs : list Char) (lines : dict Entry) (self self' : HeadingExtractor) :
  for_each_with cs [] (group_char page_num) self = (Returned lines, self') ->
  self' = self
  /\ keys lines = distinct_sizes (line_tops cs)
  /\ forall k,
      dict_get k lines
      = match find (same_line k) cs with
        | Some c => Some (entry_from page_num c (line_text k cs))
        | None => None
        end.
Proof.
  rewrite assemble_run. intro Hrun.
  destruct (assemble_from page_num [] cs) as [lines'|] eqn:Ea; [|discriminate].
  injection Hrun as <- <-. split; [reflexivity|].
  destruct (assemble_from_lines page_num cs [] lines' Ea) as [Hkeys Hget].
  split; [exact Hkeys | exact Hget].
Qed.
End Lines.

(** X5, witness: in [mixed_chars] the character "d" joins the line of "ab",
    after "c" in the stream, and the line keeps the size and font of "a". *)
Lemma lines_by_font_of_page_witness :
  exists lines,
    for_each_with mixed_chars [] (group_char (U := ascii_unicode) 0) __init__
    = (Returned lines, __init__)
    /\ keys lines = [50.0; 80.0]
    /\ dict_get 50.0 lines
       = Some {| e_text := py "abd"; e_size := 20.0; e_font := py "Arial";
                 e_page := 1 |}.
Proof.
  destruct (for_each_with mixed_chars [] (group_char (U := ascii_unicode) 0) __init__)
    as [[lines|] self'] eqn:Hrun; [|vm_compute in Hrun; discriminate Hrun].
  destruct (lines_by_font_of_page (U := ascii_unicode) 0 mixed_chars lines __init__ self' Hrun)
    as [-> [Hkeys Hget]].
  exists lines. split; [reflexivity|]. split.
  - rewrite Hkeys. vm_compute. reflexivity.
  - rewrite Hget. vm_compute. reflexivity.
Defined.

(** ** Lines of single characters *)

Section OneWord.
Context {U : Unicode}.

Lemma assemble_from_entries (P : Entry -> Prop) (page_num : Z) (cs : list Char) :
  (forall c txt e, In c cs -> c_text c = Some txt -> P e -> P (add_text (strip txt) e)) ->
  (forall c s, In c cs -> c_size c = Some s -> P (entry_from page_num c [])) ->
  forall lines lines',
    Forall P (values lines) ->
    assemble_from page_num lines cs = Some lines' ->
    Forall P (values lines').
Proof.
  induction cs as [|c cs IH]; intros Hadd Hnew lines lines' Hl Hrun.
  - cbn in Hrun. congruence.
  - cbn [assemble_from] in Hrun.
    destruct (group_char_view page_num lines c) as [lines1|] eqn:E; [|discriminate].
    apply (IH (fun c' txt e Hc => Hadd c' txt e (or_intror Hc))
              (fun c' s Hc => Hnew c' s (or_intror Hc)) lines1 lines'); [|exact Hrun].
    unfold group_char_view in E.
    destruct (c_size c) as [s|] eqn:Es; [|discriminate].
    destruct (c_text c) as [txt|] eqn:Et; [|discriminate].
    destruct (c_top c); [|discriminate].
    injection E as <-.
    apply Forall_values_dict_modify.
    + destruct (negb (dict_in _ lines)); [|exact Hl].
      apply Forall_values_dict_set; [exact Hl|].
      pose proof (Hnew c s (or_introl eq_refl) Es) as Hp.
      unfold entry_from in Hp. rewrite Es in Hp. exact Hp.
    + intros e He. apply (Hadd c txt e); [left; reflexivity | exact Et | exact He].
Qed.

Lemma strip_single (txt : pystr) :
  (List.length txt <= 1)%nat -> Forall (fun ch => ch_isspace ch = false) (strip txt).
Proof.
  intro Hlen. destruct txt as [|a [|b txt]]; [constructor | | cbn in Hlen; lia].
  unfold strip. cbn [lstrip]. destruct (ch_isspace a) eqn:Ea.
  - cbn. constructor.
  - cbn [rev app lstrip]. rewrite Ea. cbn. constructor; [exact Ea | constructor].
Qed.

Lemma split_from_no_space (s cur : pystr) :
  Forall (fun ch => ch_isspace ch = false) s ->
  cur <> [] \/ s <> [] ->
  split_from cur s = [rev cur ++ s].
Proof.
  intro Hs. revert cur. induction Hs as [|c s Hc Hs IH]; intros cur Hne.
  - cbn. destruct cur; [destruct Hne; congruence|]. rewrite app_nil_r. reflexivity.
  - cbn [split_from]. rewrite Hc. rewrite IH; [|left; discriminate].
    cbn [rev]. rewrite <- app_assoc. reflexivity.
Qed.

(** X6. Line 120 strips the text of each character on its own, so when every
    character of a page has a text of at most one code point, as pdfplumber
    gives them, no entry holds whitespace: stripping an entry's text changes
    nothing, a text that is not empty is one word for [split], and the limits
    of lines 54 to 66 on the number of words reject nothing. *)
Theorem single_characters_make_one_word
        (page_num : Z) (cs : list Char) (lines : dict Entry) (self self' : HeadingExtractor) :
  (forall c txt, In c cs -> c_text c = Some txt -> (List.length txt <= 1)%nat) ->
  for_each_with cs [] (group_char page_num) self = (Returned lines, self') ->
  Forall (fun e =>
            Forall (fun ch => ch_isspace ch = false) (e_text e)
            /\ strip (e_text e) = e_text e
            /\ (e_text e <> [] ->
                str_split (strip (e_text e)) = [e_text e]
                /\ forall font_size font_name avg,
                    accepts (strip (e_text e)) font_size font_name avg
                    = accepts_whatever_the_words (strip (e_text e)) font_size font_name avg))
         (values lines).
Proof.
  intros Hone. rewrite assemble_run. intro Hrun.
  destruct (assemble_from page_num [] cs) as [lines'|] eqn:Ea; [|discriminate].
  injection Hrun as <- <-.
  assert (Hns : Forall (fun e => Forall (fun ch => ch_isspace ch = false) (e_text e))
                       (values lines')).
  { apply (assemble_from_entries
             (fun e => Forall (fun ch => ch_isspace ch = false) (e_text e))
             page_num cs) with (lines := []); [| | constructor | exact Ea].
    - intros c txt e Hc Ht He. cbn [add_text e_text]. apply Forall_app. split; [exact He|].
      apply strip_single. exact (Hone c txt Hc Ht).
    - intros c s _ _. cbn. constructor. }
  eapply Forall_impl; [|exact Hns]. intros e He. cbv beta in He.
  split; [exact He|]. split; [apply strip_no_space; exact He|].
  intro Hne. rewrite (strip_no_space _ He).
  assert (Hsplit : str_split (e_text e) = [e_text e]).
  { unfold str_split. rewrite (split_from_no_space _ [] He); [reflexivity|].
    right. exact Hne. }
  split; [exact Hsplit|].
  intros font_size font_name avg. unfold accepts, accepts_whatever_the_words.
  rewrite Hsplit. cbn [len List.length Z.of_nat Pos.of_succ_nat Z.leb Z.compare Pos.compare
                       Pos.compare_cont].
  rewrite !andb_true_r, andb_true_l. reflexivity.
Qed.
End OneWord.

(** X6, witness: the characters of [mixed_chars] have one code point each. *)
Lemma single_characters_make_one_word_witness :
  exists lines,
    for_each_with mixed_chars [] (group_char (U := ascii_unicode) 0) __init__
    = (Returned lines, __init__)
    /\ Forall (fun e => strip (U := ascii_unicode) (e_text e) = e_text e) (values lines).
Proof.
  assert (Hone : forall c txt, In c mixed_chars -> c_text c = Some txt ->
                               (List.length txt <= 1)%nat).
  { assert (HF : Forall (fun c => forall txt, c_text c = Some txt ->
                                             (List.length txt <= 1)%nat) mixed_chars).
    { vm_compute.
      repeat (apply Forall_cons; [intros txt E; injection E as <-; cbn; lia|]).
      apply Forall_nil. }
    intros c txt Hc. exact (proj1 (Forall_forall _ _) HF c Hc txt). }
  destruct (for_each_with mixed_chars [] (group_char (U := ascii_unicode) 0) __init__)
    as [[lines|] self'] eqn:Hrun; [|vm_compute in Hrun; discriminate Hrun].
  pose proof (single_characters_make_one_word
                (U := ascii_unicode) 0 mixed_chars lines __init__ self' Hone Hrun) as H.
  assert (Hself : self' = __init__).
  { rewrite assemble_run in Hrun. injection Hrun as _ <-. reflexivity. }
  exists lines. split; [rewrite Hself; reflexivity|].
  eapply Forall_impl; [|exact H]. intros e [_ [He _]]. exact He.
Defined.

(** ** What [extract_headings] returns *)

Lemma py_round1_nonneg (x : Q) : 0 < x -> 0 <= py_round1 x.
Proof.
  intro Hx. unfold py_round1, round_half_even.
  assert (Hf : (0 <= Qfloor (x * 10))%Z).
  { change 0%Z with (Qfloor 0). apply Qfloor_resp_le. lra. }
  unfold Qle. cbn [Qnum Qden].
  destruct (Qcompare _ _); try lia. destruct (Z.even _); lia.
Qed.

Lemma document_sizes_rounded (pdf : Pdf) :
  Forall (fun k => 0 <= k /\ py_round1 k = k) (document_sizes pdf).
Proof.
  apply Forall_forall. intros k Hk. unfold document_sizes in Hk.
  apply in_flat_map in Hk. destruct Hk as [p [_ Hk]].
  unfold page_sizes in Hk. destruct (chars p) as [cs|]; [|destruct Hk].
  unfold char_sizes in Hk. apply in_flat_map in Hk. destruct Hk as [c [_ Hk]].
  destruct (c_size c) as [s|]; [|destruct Hk].
  destruct (Qgtb s 0) eqn:E; [|destruct Hk].
  destruct Hk as [<-|[]]. apply Qgtb_true in E.
  split; [apply py_round1_nonneg; exact E | apply py_round1_idempotent].
Qed.

Lemma document_keys_rounded (pdf : Pdf) :
  Forall (fun k => 0 <= k /\ py_round1 k = k) (document_keys pdf).
Proof.
  apply Forall_forall. intros k Hk. unfold document_keys, distinct_sizes in Hk.
  destruct (fold_add_distinct_spec (document_sizes pdf) [] (NoDupA_nil Qeq))
    as [_ [_ [_ Hfrom]]].
  destruct (Hfrom k Hk) as [[]|Hin].
  exact (proj1 (Forall_forall _ _) (document_sizes_rounded pdf) k Hin).
Qed.

Section Stripping.
Context {U : Unicode}.

Lemma lstrip_suffix (s : pystr) : exists p, s = p ++ lstrip s.
Proof.
  induction s as [|c s [p IH]]; [exists []; reflexivity|].
  cbn [lstrip]. destruct (ch_isspace c).
  - exists (c :: p). cbn. f_equal. exact IH.
  - exists []. reflexivity.
Qed.

Lemma lstrip_starts_unspaced (s : pystr) : starts_unspaced (lstrip s).
Proof.
  induction s as [|c s IH]; [exact I|].
  cbn [lstrip]. destruct (ch_isspace c) eqn:E; [exact IH | exact E].
Qed.

Lemma lstrip_fixed (s : pystr) : starts_unspaced s -> lstrip s = s.
Proof.
  destruct s as [|c s]; [reflexivity|]. cbn. intros ->. reflexivity.
Qed.

Lemma strip_idempotent (s : pystr) : strip (strip s) = strip s.
Proof.
  unfold strip.
  set (a := lstrip s). set (b := lstrip (rev a)).
  assert (Hb : starts_unspaced b) by apply lstrip_starts_unspaced.
  assert (Ha : starts_unspaced a) by apply lstrip_starts_unspaced.
  assert (Hrb : starts_unspaced (rev b)).
  { destruct (lstrip_suffix (rev a)) as [p Hp]. fold b in Hp.
    assert (Ea : a = rev b ++ rev p).
    { rewrite <- rev_app_distr, <- Hp, rev_involutive. reflexivity. }
    destruct (rev b) as [|c r]; [exact I|].
    rewrite Ea in Ha. exact Ha. }
  rewrite (lstrip_fixed _ Hrb), rev_involutive, (lstrip_fixed _ Hb). reflexivity.
Qed.
End Stripping.


Lemma StronglySorted_app (l1 l2 : list Z) :
  StronglySorted Z.le l1 -> StronglySorted Z.le l2 ->
  (forall x y, In x l1 -> In y l2 -> (x <= y)%Z) ->
  StronglySorted Z.le (l1 ++ l2).
Proof.
  intros H1 H2 Hle. induction H1 as [|x l1 Hs IH Hx]; [exact H2|].
  cbn [app]. constructor.
  - apply IH. intros a b Ha Hb. apply Hle; [right; exact Ha | exact Hb].
  - apply Forall_app. split; [exact Hx|].
    apply Forall_forall. intros y Hy. apply Hle; [left; reflexivity | exact Hy].
Qed.

Lemma StronglySorted_constant (v : Z) (l : list Z) :
  Forall (fun x => x = v) l -> StronglySorted Z.le l.
Proof.
  induction 1 as [|x l Hx Hl IH]; constructor; [exact IH|].
  subst x. eapply Forall_impl; [|exact Hl]. intros y ->. apply Z.le_refl.
Qed.

Lemma StronglySorted_filter_map {A} (f : A -> Z) (p : A -> bool) (l : list A) :
  StronglySorted Z.le (map f l) -> StronglySorted Z.le (map f (filter p l)).
Proof.
  induction l as [|a l IH]; intro H; [constructor|].
  cbn [map] in H. inversion H as [|? ? Hs Hall]; subst.
  cbn [filter]. destruct (p a); [|apply IH; exact Hs].
  cbn [map]. constructor; [apply IH; exact Hs|].
  apply Forall_forall. intros y Hy. apply in_map_iff in Hy.
  destruct Hy as [b [<- Hb]]. apply filter_In in Hb.
  apply (proj1 (Forall_forall _ _) Hall). apply in_map. exact (proj1 Hb).
Qed.

Section Outline.
Context {U : Unicode}.

Lemma page_lines_page (i : nat) (p : Page) (es : list Entry) :
  page_lines i p = Some es ->
  Forall (fun e => e_page e = (Z.of_nat i + 1)%Z) es.
Proof.
  unfold page_lines. destruct (chars p) as [cs|]; [|discriminate].
  destruct (assemble_from (Z.of_nat i) [] cs) as [lines|] eqn:Ea; [|discriminate].
  intro H. injection H as <-.
  apply (assemble_from_entries
           (fun e => e_page e = (Z.of_nat i + 1)%Z) (Z.of_nat i) cs)
    with (lines := []); [| | constructor | exact Ea].
  - intros c txt e _ _ He. exact He.
  - intros c s _ _. reflexivity.
Qed.

Lemma pages_lines_pages (ps : list Page) (i : nat) (es : list Entry) :
  pages_lines i ps = Some es ->
  StronglySorted Z.le (map e_page es)
  /\ Forall (fun e => (Z.of_nat i + 1 <= e_page e <= Z.of_nat i + len ps)%Z) es.
Proof.
  revert i es. induction ps as [|p ps IH]; intros i es Hes.
  - cbn in Hes. injection Hes as <-. split; constructor.
  - read_pages Hes es1 es2 E1 E2. injection Hes as <-.
    pose proof (page_lines_page _ _ _ E1) as H1.
    destruct (IH _ _ E2) as [Hs2 Hb2].
    assert (Hlen : len (p :: ps) = (len ps + 1)%Z) by (unfold len; cbn [List.length]; lia).
    split.
    + rewrite map_app. apply StronglySorted_app.
      * apply (StronglySorted_constant (Z.of_nat i + 1)).
        apply Forall_map. exact H1.
      * exact Hs2.
      * intros x y Hx Hy. apply in_map_iff in Hx. apply in_map_iff in Hy.
        destruct Hx as [e1 [<- He1]]. destruct Hy as [e2 [<- He2]].
        rewrite (proj1 (Forall_forall _ _) H1 e1 He1).
        pose proof (proj1 (Forall_forall _ _) Hb2 e2 He2) as Hb. cbv beta in Hb. lia.
    + apply Forall_app. split.
      * eapply Forall_impl; [|exact H1]. intros e ->.
        unfold len in *. lia.
      * eapply Forall_impl; [|exact Hb2]. intros e He. cbv beta in He. lia.
Qed.

Lemma extract_headings_unreadable (pdf_path : PdfFile) (self : HeadingExtractor) :
  document_lines pdf_path = None ->
  fst (extract_headings pdf_path self) = Returned (Untitled, []).
Proof.
  intro Hnone. rewrite extract_headings_unfold. unfold try_except.
  pose proof (proj2 (try_block_raises pdf_path Untitled __init__) Hnone) as Hr.
  destruct (try_block pdf_path Untitled __init__) as [[r|] self'];
    [discriminate Hr | reflexivity].
Qed.

(** [extract_headings] on a document that can be read, with the object it
    leaves. *)
Lemma extract_headings_state (pdf : Pdf) (es : list Entry) (self : HeadingExtractor) :
  document_lines (Some pdf) = Some es ->
  exists d',
    keys d' = document_keys pdf
    /\ extract_headings (Some pdf) self
       = (Returned (title_of (document_keys pdf) es, outline_of (document_keys pdf) es),
          {| headings := outline_of (document_keys pdf) es; size_thresholds := d' |}).
Proof.
  intro Hes. cbn [document_lines] in Hes.
  rewrite extract_headings_unfold.
  unfold try_except, try_block, first_pass, second_pass.
  unfold bind at 1. cbn [item]. unfold ret at 1.
  unfold bind at 1. rewrite (first_pass_pages_run _ _ _ _ Hes).
  unfold bind at 1. rewrite (second_pass_pages_run _ _ _ _ _ Hes).
  cbn [size_thresholds __init__].
  assert (Hcov : Forall (fun e => covered (document_keys pdf) (e_size e)) es).
  { eapply Forall_impl; [|apply (pages_lines_covered _ _ _ Hes)].
    intros e He Hpos. unfold document_keys, distinct_sizes.
    apply (fold_add_distinct_spec (document_sizes pdf) [] (NoDupA_nil Qeq)).
    apply He. exact Hpos. }
  destruct (classify_entries_run (document_keys pdf) es Hcov Untitled
              (with_thresholds
                 (fold_left (fun d x => counted x d) (flat_map page_sizes (pages pdf)) [])
                 __init__))
    as [d' [Hd' Hrun]].
  { cbn [size_thresholds with_thresholds]. rewrite keys_fold_counted. reflexivity. }
  exists d'. split; [exact Hd'|].
  rewrite Hrun. unfold bind, get_headings, ret.
  cbn [fst headings with_thresholds __init__ app].
  rewrite (proj2 (str_eqb_true Untitled Untitled) eq_refl). reflexivity.
Qed.
End Outline.

Section ReturnedOutline.
Context {U : Unicode}.

Lemma extract_headings_cases (pdf : Pdf) (self : HeadingExtractor) :
  (exists es,
      document_lines (Some pdf) = Some es
      /\ fst (extract_headings (Some pdf) self)
         = Returned (title_of (document_keys pdf) es, outline_of (document_keys pdf) es))
  \/ fst (extract_headings (Some pdf) self) = Returned (Untitled, []).
Proof.
  destruct (document_lines (Some pdf)) as [es|] eqn:Hes.
  - left. exists es. split; [reflexivity | apply extract_headings_run; exact Hes].
  - right. apply extract_headings_unreadable. exact Hes.
Qed.

(** X7. Whatever the document, every heading of the returned outline has a
    text that is not empty, has at most 100 characters and has no whitespace
    at its ends; a page number between 1 and the number of pages; and one of
    the levels "H1", "H2", "H3". *)
Theorem outline_headings_well_formed (pdf : Pdf) (self : HeadingExtractor) :
  exists title outline,
    fst (extract_headings (Some pdf) self) = Returned (title, outline)
    /\ Forall (fun h =>
                 h_text h <> []
                 /\ (len (h_text h) <= 100)%Z
                 /\ strip (h_text h) = h_text h
                 /\ (1 <= h_page h <= len (pages pdf))%Z
                 /\ (h_level h = H1 \/ h_level h = H2 \/ h_level h = H3))
              outline.
Proof.
  destruct (extract_headings_cases pdf self) as [[es [Hes Hrun]]|Hrun].
  2: { eexists. eexists. split; [exact Hrun | constructor]. }
  eexists. eexists. split; [exact Hrun|].
  cbn [document_lines] in Hes.
  destruct (pages_lines_pages _ _ _ Hes) as [_ Hpages].
  unfold outline_of. apply Forall_forall. intros h Hh.
  apply in_map_iff in Hh. destruct Hh as [e [<- He]].
  apply filter_In in He. destruct He as [Hin Hacc].
  unfold is_heading_entry in Hacc. apply andb_true_iff in Hacc.
  destruct Hacc as [Hgate _]. apply negb_true_iff, orb_false_iff in Hgate.
  destruct Hgate as [Hne Hlen]. cbn [heading_of h_text h_page h_level].
  split; [|split; [|split; [|split]]].
  - intro E. rewrite E in Hne. discriminate Hne.
  - rewrite Z.gtb_ltb in Hlen. apply Z.ltb_ge. exact Hlen.
  - unfold line_of. apply strip_idempotent.
  - pose proof (proj1 (Forall_forall _ _) Hpages e Hin) as Hp. cbv beta in Hp.
    change (Z.of_nat 0) with 0%Z in Hp. lia.
  - apply level_of_cases.
Qed.

(** X8. Whatever the document, the page numbers of the returned outline
    never decrease from one heading to the next: the headings come page by
    page. *)
Theorem outline_follows_pages (pdf : Pdf) (self : HeadingExtractor) :
  exists title outline,
    fst (extract_headings (Some pdf) self) = Returned (title, outline)
    /\ StronglySorted Z.le (map h_page outline).
Proof.
  destruct (extract_headings_cases pdf self) as [[es [Hes Hrun]]|Hrun].
  2: { eexists. eexists. split; [exact Hrun | constructor]. }
  eexists. eexists. split; [exact Hrun|].
  cbn [document_lines] in Hes.
  destruct (pages_lines_pages _ _ _ Hes) as [Hsorted _].
  unfold outline_of. rewrite map_map.
  change (fun x => h_page (heading_of (document_keys pdf) x)) with e_page.
  apply StronglySorted_filter_map. exact Hsorted.
Qed.

(** X9. Whatever the document, the returned title is "Untitled" or the text
    of a heading of the returned outline, and that heading has level "H1". *)
Theorem title_is_an_H1_heading (pdf : Pdf) (self : HeadingExtractor) :
  exists title outline,
    fst (extract_headings (Some pdf) self) = Returned (title, outline)
    /\ (title = Untitled
        \/ exists h, In h outline /\ h_text h = title /\ h_level h = H1).
Proof.
  destruct (extract_headings_cases pdf self) as [[es [Hes Hrun]]|Hrun].
  2: { eexists. eexists. split; [exact Hrun | left; reflexivity]. }
  eexists. eexists. split; [exact Hrun|].
  unfold title_of.
  destruct (find _ es) as [e|] eqn:Efind; [|left; reflexivity].
  right. apply find_some in Efind. destruct Efind as [Hin Hpred].
  apply andb_true_iff in Hpred. destruct Hpred as [Hpred _].
  apply andb_true_iff in Hpred. destruct Hpred as [Hacc Hlarge].
  exists (heading_of (document_keys pdf) e). split; [|split].
  - unfold outline_of. apply in_map. apply filter_In. split; assumption.
  - reflexivity.
  - cbn [heading_of h_level]. unfold large_enough in Hlarge. unfold level_of.
    pose proof (largest_of_spec (document_keys pdf)) as Hl.
    destruct (largest_of (document_keys pdf)) as [l|]; [|discriminate Hlarge].
    destruct Hl as [Hl _].
    pose proof (proj1 (Forall_forall _ _) (document_keys_rounded pdf) l Hl) as [Hpos _].
    apply Qgeb_true in Hlarge.
    assert (H09 : Qgeb (e_size e) (0.9 * l) = true) by (apply Qgeb_true; lra).
    rewrite H09. reflexivity.
Qed.

(** X10. After [extract_headings] on a document that can be read,
    [self.headings] is the returned outline, which is what [save_to_json]
    writes; the keys of the histogram are the distinct rounded sizes of the
    characters of positive size, as the first pass left them: classifying
    adds no key; and every key is at least 0 and rounded to one decimal. *)
Theorem extraction_leaves_outline_in_object
        (pdf : Pdf) (es : list Entry) (self : HeadingExtractor) :
  document_lines (Some pdf) = Some es ->
  exists title outline self',
    extract_headings (Some pdf) self = (Returned (title, outline), self')
    /\ headings self' = outline
    /\ keys (size_thresholds self') = distinct_sizes (document_sizes pdf)
    /\ keys (size_thresholds self') = keys (size_thresholds (snd (first_pass pdf __init__)))
    /\ Forall (fun k => 0 <= k /\ py_round1 k = k) (keys (size_thresholds self')).
Proof.
  intro Hes. destruct (extract_headings_state pdf es self Hes) as [d' [Hd' Hrun]].
  eexists. eexists. eexists. split; [exact Hrun|].
  cbn [headings size_thresholds]. split; [reflexivity|]. split; [exact Hd'|]. split.
  - cbn [document_lines] in Hes. unfold first_pass.
    rewrite (first_pass_pages_run _ _ _ _ Hes).
    cbn [snd size_thresholds with_thresholds __init__].
    rewrite keys_fold_counted. exact Hd'.
  - rewrite Hd'. apply document_keys_rounded.
Qed.
End ReturnedOutline.

(** X10, witness: [untitled_pdf]. *)
Lemma extraction_leaves_outline_in_object_witness :
  exists title outline self',
    extract_headings (U := ascii_unicode) (Some untitled_pdf) __init__
    = (Returned (title, outline), self')
    /\ headings self' = outline
    /\ keys (size_thresholds self') = distinct_sizes (document_sizes untitled_pdf)
    /\ keys (size_thresholds self')
       = keys (size_thresholds (snd (first_pass untitled_pdf __init__)))
    /\ Forall (fun k => 0 <= k /\ py_round1 k = k) (keys (size_thresholds self')).
Proof.
  apply (extraction_leaves_outline_in_object (U := ascii_unicode) untitled_pdf untitled_lines).
  vm_compute. reflexivity.
Defined.

(** ** [process_pdfs] and the files it writes *)

Section Writing.
Context {U : Unicode}.
Variable open_pdf : pystr -> PdfFile.
Variable can_write : pystr -> bool.

(** [extract_headings] returns on every file, and an outline that is not
    empty is the list it leaves in [self.headings]. *)
Lemma extract_headings_returns (pdf_path : PdfFile) (self : HeadingExtractor) :
  exists title outline self',
    extract_headings pdf_path self = (Returned (title, outline), self')
    /\ (outline <> [] -> headings self' = outline).
Proof.
  destruct (document_lines pdf_path) as [es|] eqn:Hes.
  - destruct pdf_path as [pdf|]; [|discriminate Hes].
    destruct (extract_headings_state pdf es self Hes) as [d' [_ Hrun]].
    eexists. eexists. eexists. split; [exact Hrun|]. intros _. reflexivity.
  - pose proof (extract_headings_unreadable pdf_path self Hes) as Hrun.
    destruct (extract_headings pdf_path self) as [r self'] eqn:E. cbn [fst] in Hrun.
    subst r. eexists. eexists. eexists. split; [reflexivity|].
    intro H. contradiction H. reflexivity.
Qed.

Lemma process_pdfs_writing_run (listing : list pystr) :
  (forall f, In f listing -> has_outline open_pdf f = true ->
             can_write (output_filename f) = true) ->
  forall extractor written processed_files,
    process_pdfs_writing open_pdf can_write listing extractor written processed_files
    = (Returned (processed_files ++ filter (has_outline open_pdf) listing),
       written
       ++ map (fun f => (output_filename f,
                         {| j_title := fst (fresh_result open_pdf f);
                            j_outline := snd (fresh_result open_pdf f) |}))
              (filter (has_outline open_pdf) listing)).
Proof.
  induction listing as [|f listing IH]; intros Hw extractor written processed_files.
  - cbn. rewrite !app_nil_r. reflexivity.
  - assert (Hw' : forall f', In f' listing -> has_outline open_pdf f' = true ->
                             can_write (output_filename f') = true).
    { intros f' Hin. apply Hw. right. exact Hin. }
    specialize (Hw f (or_introl eq_refl)).
    cbn [process_pdfs_writing filter].
    assert (Hho : has_outline open_pdf f
                  = is_pdf_name f
                    && match snd (fresh_result open_pdf f) with
                       | [] => false
                       | _ => true
                       end) by reflexivity.
    rewrite Hho in Hw |- *. clear Hho.
    destruct (is_pdf_name f); cbn [andb]; [|apply (IH Hw')].
    assert (Hfresh : fst (extract_headings (open_pdf f) extractor)
                     = fst (extract_headings (open_pdf f) __init__))
      by (rewrite !extract_headings_unfold; reflexivity).
    destruct (extract_headings_returns (open_pdf f) extractor)
      as [title [outline [self' [Hrun Hobj]]]].
    rewrite Hrun in Hfresh |- *. cbn [fst] in Hfresh.
    assert (Hfr : fresh_result open_pdf f = (title, outline))
      by (unfold fresh_result; rewrite <- Hfresh; reflexivity).
    rewrite Hfr in Hw |- *. cbn [fst snd] in Hw |- *.
    destruct outline as [|h outline]; [apply (IH Hw')|].
    rewrite (Hw eq_refl), (IH Hw'). cbn [map]. rewrite Hfr. cbn [fst snd].
    unfold save_to_json. rewrite Hobj; [|discriminate].
    rewrite <- !app_assoc. reflexivity.
Qed.

(** X11. [process_pdfs] on a directory whose output files can be written:
    the names it returns are the names of the listing that end in ".pdf",
    whatever the case of the letters, and whose document gives an outline
    that is not empty, in the order of the listing; one file is written for
    each, named by [output_filename], holding the title and the outline that
    a fresh extractor returns for the document.  A document that cannot be
    read, or has no heading, gets no file and is not among the names. *)
Theorem process_pdfs_writes_outlines (listing : list pystr) :
  (forall f, In f listing -> has_outline open_pdf f = true ->
             can_write (output_filename f) = true) ->
  process_pdfs_writing open_pdf can_write listing __init__ [] []
  = (Returned (filter (has_outline open_pdf) listing),
     map (fun f => (output_filename f,
                    {| j_title := fst (fresh_result open_pdf f);
                       j_outline := snd (fresh_result open_pdf f) |}))
         (filter (has_outline open_pdf) listing)).
Proof.
  intro Hw. apply (process_pdfs_writing_run listing Hw __init__ [] []).
Qed.
End Writing.

(** X11, witness: of the four names of [example_listing] only "a.pdf" gets a
    file, "a.json". *)
Lemma process_pdfs_writes_outlines_witness :
  process_pdfs_writing (U := ascii_unicode) example_open (fun _ => true)
                       example_listing __init__ [] []
  = (Returned [py "a.pdf"],
     [(py "a.json",
       {| j_title := py "Introduction";
          j_outline :=
            [ {| h_text := py "Untitled"; h_page := 1; h_level := H1 |};
              {| h_text := py "Introduction"; h_page := 1; h_level := H1 |} ] |})]).
Proof.
  rewrite (process_pdfs_writes_outlines (U := ascii_unicode) example_open (fun _ => true)
             example_listing (fun _ _ _ => eq_refl)).
  vm_compute. reflexivity.
Defined.

(** ** The name of the output file *)

Lemma rfind_from_absent (c : N) (s : pystr) (i found : Z) :
  ~ In c s -> rfind_from i c s found = found.
Proof.
  revert i found. induction s as [|a s IH]; intros i found Hnot; [reflexivity|].
  cbn [rfind_from]. destruct (N.eqb_spec a c) as [->|Hne].
  - exfalso. apply Hnot. left. reflexivity.
  - apply IH. intro H. apply Hnot. right. exact H.
Qed.

Lemma rfind_from_app (c : N) (s1 s2 : pystr) (i found : Z) :
  rfind_from i c (s1 ++ s2) found
  = rfind_from (i + len s1)%Z c s2 (rfind_from i c s1 found).
Proof.
  revert i found. induction s1 as [|a s1 IH]; intros i found.
  - cbn [app rfind_from]. unfold len. cbn. rewrite Z.add_0_r. reflexivity.
  - cbn [app rfind_from]. rewrite IH. f_equal. unfold len. cbn [List.length]. lia.
Qed.

Lemma rfind_last (c : N) (stem ext : pystr) :
  ~ In c ext -> rfind c (stem ++ c :: ext) = len stem.
Proof.
  intro Hnot. unfold rfind. rewrite rfind_from_app. cbn [rfind_from].
  rewrite N.eqb_refl. rewrite rfind_from_absent; [lia | exact Hnot].
Qed.

Lemma slice_stem (stem rest : pystr) : slice 0 (len stem) (stem ++ rest) = stem.
Proof.
  unfold slice, len. rewrite Nat2Z.id. cbn [Z.to_nat skipn]. rewrite Nat.sub_0_r.
  rewrite firstn_app, Nat.sub_diag, firstn_all. cbn. apply app_nil_r.
Qed.

Section OutputName.
Context {U : Unicode}.

(** X12. For a name made of a stem, a period and an extension, with no
    separator in it and no period in the extension: when the stem has a
    character that is not a period, the output file is named by the stem
    followed by ".json", so two names that differ only in the extension are
    written to the same file; when the stem is empty or all periods, the
    whole name is kept and ".json" follows it. *)
Theorem output_filename_of_stem (stem ext : pystr) :
  ~ In (ch "/") (stem ++ ch "." :: ext) ->
  ~ In (ch ".") ext ->
  output_filename (stem ++ ch "." :: ext)
  = if existsb (fun a => negb (a =? ch ".")%N) stem
    then stem ++ py ".json"
    else (stem ++ ch "." :: ext) ++ py ".json".
Proof.
  intros Hsep Hdot. unfold output_filename, splitext_root.
  assert (Hs : rfind (ch "/") (stem ++ ch "." :: ext) = (-1)%Z).
  { unfold rfind. apply rfind_from_absent. exact Hsep. }
  rewrite Hs, (rfind_last _ _ _ Hdot). cbv zeta.
  change (-1 + 1)%Z with 0%Z. rewrite slice_stem.
  assert (Hgt : (len stem >? -1)%Z = true).
  { rewrite Z.gtb_ltb. apply Z.ltb_lt. unfold len. lia. }
  rewrite Hgt. cbn [andb].
  destruct (existsb _ stem); reflexivity.
Qed.
End OutputName.

(** X12, witness: "report.pdf" and "report.PDF" both give "report.json". *)
Lemma output_filename_of_stem_witness :
  output_filename (py "report.pdf") = py "report.json"
  /\ output_filename (py "report.PDF") = py "report.json".
Proof.
  split.
  - apply (output_filename_of_stem (py "report") (py "pdf"));
      vm_compute; intuition discriminate.
  - apply (output_filename_of_stem (py "report") (py "PDF"));
      vm_compute; intuition discriminate.
Defined.

(** * The arithmetic in binary64 *)

(** ** The order of the floats *)

Ltac fold_pos_compare :=
  repeat match goal with
         | |- context [Pos.compare_cont Eq ?a ?b] =>
             change (Pos.compare_cont Eq a b) with (Pos.compare a b)
         | H : context [Pos.compare_cont Eq ?a ?b] |- _ =>
             change (Pos.compare_cont Eq a b) with (Pos.compare a b) in H
         end.

Ltac compare_cases :=
  repeat match goal with
         | |- context [Z.compare ?a ?b] => destruct (Z.compare_spec a b)
         | H : context [Z.compare ?a ?b] |- _ => destruct (Z.compare_spec a b)
         | |- context [Pos.compare ?a ?b] => destruct (Pos.compare_spec a b)
         | H : context [Pos.compare ?a ?b] |- _ => destruct (Pos.compare_spec a b)
         end.

Lemma SFcompare_refl (f : spec_float) : f <> S754_nan -> SFcompare f f = Some Eq.
Proof.
  destruct f as [s|s| |s m e]; cbn; try congruence.
  - intros _. destruct s; reflexivity.
  - intros _. fold_pos_compare. rewrite Z.compare_refl, Pos.compare_refl.
    destruct s; reflexivity.
Qed.

Lemma SFleb_total (f1 f2 : spec_float) :
  f1 <> S754_nan -> f2 <> S754_nan -> SFleb f1 f2 = false -> SFleb f2 f1 = true.
Proof.
  intros H1 H2. unfold SFleb.
  destruct f1 as [s1|s1| |s1 m1 e1], f2 as [s2|s2| |s2 m2 e2]; try congruence; cbn;
    try (destruct s1; cbn; congruence); try (destruct s2; cbn; congruence);
    try (destruct s1, s2; cbn; congruence).
  fold_pos_compare.
  destruct s1, s2; cbn; try congruence; compare_cases; cbn; try congruence; try lia.
Qed.

Lemma SFleb_trans (f1 f2 f3 : spec_float) :
  SFleb f1 f2 = true -> SFleb f2 f3 = true -> SFleb f1 f3 = true.
Proof.
  unfold SFleb.
  destruct f1 as [s1|s1| |s1 m1 e1], f2 as [s2|s2| |s2 m2 e2], f3 as [s3|s3| |s3 m3 e3];
    cbn; try congruence;
    try (destruct s1; cbn; congruence); try (destruct s2; cbn; congruence);
    try (destruct s3; cbn; congruence);
    try (destruct s1, s2; cbn; congruence); try (destruct s1, s3; cbn; congruence);
    try (destruct s2, s3; cbn; congruence);
    try (destruct s1, s2, s3; cbn; congruence).
  all: fold_pos_compare.
  all: destruct s1, s2, s3; cbn; try congruence.
  all: intros H12 H23; compare_cases; cbn in *; try congruence; try lia.
Qed.

Lemma not_nan_spec (x : float) : is_nan x = false -> Prim2SF x <> S754_nan.
Proof.
  unfold is_nan. rewrite eqb_spec. intros H E. rewrite E in H. discriminate H.
Qed.

Lemma float_eqb_refl (x : float) : is_nan x = false -> (x =? x)%float = true.
Proof. unfold is_nan. intro H. apply negb_false_iff. exact H. Qed.

Lemma float_leb_refl (x : float) : is_nan x = false -> (x <=? x)%float = true.
Proof.
  intro H. rewrite leb_spec. unfold SFleb.
  rewrite (SFcompare_refl _ (not_nan_spec x H)). reflexivity.
Qed.

Lemma float_leb_total (x y : float) :
  is_nan x = false -> is_nan y = false ->
  (x <=? y)%float = false -> (y <=? x)%float = true.
Proof.
  intros Hx Hy. rewrite !leb_spec.
  apply SFleb_total; apply not_nan_spec; assumption.
Qed.

Lemma float_leb_trans (x y z : float) :
  (x <=? y)%float = true -> (y <=? z)%float = true -> (x <=? z)%float = true.
Proof. rewrite !leb_spec. apply SFleb_trans. Qed.

(** ** The largest key *)

Lemma binary64_sorted_reverse_head (l : list float) :
  Forall (fun k => is_nan k = false) l ->
  match Binary64.sorted_reverse l with
  | [] => l = []
  | h :: _ => Binary64.is_largest h l
  end.
Proof.
  induction 1 as [|a l Ha Hl IH]; [reflexivity|].
  cbn [Binary64.sorted_reverse fold_right]. fold (Binary64.sorted_reverse l).
  destruct (Binary64.sorted_reverse l) as [|h t]; cbn [Binary64.insert_desc].
  - subst l. split; [left; reflexivity|].
    intros x [<-|[]]. apply float_leb_refl. exact Ha.
  - destruct IH as [Hin Hmax].
    destruct (h <=? a)%float eqn:E.
    + split; [left; reflexivity|].
      intros x [<-|Hx]; [apply float_leb_refl; exact Ha|].
      apply float_leb_trans with h; [apply Hmax; exact Hx | exact E].
    + split; [right; exact Hin|].
      intros x [<-|Hx]; [|apply Hmax; exact Hx].
      apply float_leb_total; [| exact Ha | exact E].
      exact (proj1 (Forall_forall _ _) Hl h Hin).
Qed.

(** C4. On a histogram whose keys are not NaN, [_determine_level] returns
    "H3" when the histogram is empty; otherwise there is a largest key, and
    it returns "H1" when the size is at least that key times 0.9, otherwise
    "H2" when the size is at least that key times 0.8, otherwise "H3", the
    products and comparisons being those of binary64.  On {10.0: 5, 20.0: 1}
    the sizes 19.0, 16.5 and 10.0 get "H1", "H2" and "H3". *)
Theorem binary64_determine_level (self : Binary64.HeadingExtractor) (size : float) :
  Forall (fun k => is_nan k = false) (Binary64.keys (Binary64.size_thresholds self)) ->
  match Binary64.size_thresholds self with
  | [] => Binary64._determine_level self size = H3
  | _ =>
      exists largest,
        Binary64.is_largest largest (Binary64.keys (Binary64.size_thresholds self))
        /\ Binary64._determine_level self size
           = if (largest * 0.9 <=? size)%float then H1
             else if (largest * 0.8 <=? size)%float then H2
             else H3
  end
  /\ Binary64._determine_level Binary64.two_sizes 19.0%float = H1
  /\ Binary64._determine_level Binary64.two_sizes 16.5%float = H2
  /\ Binary64._determine_level Binary64.two_sizes 10.0%float = H3.
Proof.
  intro Hnan. split; [|repeat split; vm_compute; reflexivity].
  unfold Binary64._determine_level.
  pose proof (binary64_sorted_reverse_head _ Hnan) as Hhead.
  destruct (Binary64.size_thresholds self) as [|kv d] eqn:Ed; [reflexivity|].
  destruct (Binary64.sorted_reverse (Binary64.keys (kv :: d))) as [|h t];
    [discriminate Hhead|].
  exists h. split; [exact Hhead | reflexivity].
Qed.

(** C4, witness: the histogram {10.0: 5, 20.0: 1}. *)
Lemma binary64_determine_level_witness :
  Binary64._determine_level Binary64.two_sizes 19.0%float = H1
  /\ Binary64._determine_level Binary64.two_sizes 16.5%float = H2
  /\ Binary64._determine_level Binary64.two_sizes 10.0%float = H3.
Proof.
  assert (Hnan : Forall (fun k => is_nan k = false)
                        (Binary64.keys (Binary64.size_thresholds Binary64.two_sizes))).
  { repeat constructor. }
  destruct (binary64_determine_level Binary64.two_sizes 19.0%float Hnan) as [_ H].
  exact H.
Defined.

(** The products are rounded: 13.0 times 0.9 is 11.700000000000001, so 11.7
    on the histogram {13.0: 1} gets "H2"; 12.0 times 0.8 is
    9.600000000000001, so 9.6 on {12.0: 1, 9.6: 1} gets "H3". *)
Example binary64_levels_are_rounded :
  (13.0 * 0.9 = 11.700000000000001)%float
  /\ Binary64._determine_level
       {| Binary64.headings := []; Binary64.size_thresholds := [(13.0%float, 1%Z)] |}
       11.7%float = H2
  /\ Binary64._determine_level
       {| Binary64.headings := [];
          Binary64.size_thresholds := [(12.0%float, 1%Z); (9.6%float, 1%Z)] |}
       9.6%float = H3.
Proof. repeat split; vm_compute; reflexivity. Qed.

(** X2. On a histogram whose keys are not NaN, [_get_title_threshold]
    returns 18.0 when the histogram is empty and otherwise the binary64
    product of the largest key and 0.95. *)
Theorem binary64_title_threshold (self : Binary64.HeadingExtractor) :
  Forall (fun k => is_nan k = false) (Binary64.keys (Binary64.size_thresholds self)) ->
  match Binary64.size_thresholds self with
  | [] => Binary64._get_title_threshold self = 18.0%float
  | _ =>
      exists largest,
        Binary64.is_largest largest (Binary64.keys (Binary64.size_thresholds self))
        /\ Binary64._get_title_threshold self = (largest * 0.95)%float
  end.
Proof.
  intro Hnan. unfold Binary64._get_title_threshold.
  pose proof (binary64_sorted_reverse_head _ Hnan) as Hhead.
  destruct (Binary64.size_thresholds self) as [|kv d] eqn:Ed; [reflexivity|].
  destruct (Binary64.sorted_reverse (Binary64.keys (kv :: d))) as [|h t];
    [discriminate Hhead|].
  exists h. split; [exact Hhead | reflexivity].
Qed.

(** X2, witness: on the histogram {10.4: 3, 9.6: 7} the threshold is
    9.879999999999999, the rounded product of 10.4 and 0.95. *)
Lemma binary64_title_threshold_witness :
  exists largest,
    Binary64.is_largest largest [9.6%float; 10.4%float]
    /\ Binary64._get_title_threshold
         {| Binary64.headings := [];
            Binary64.size_thresholds := [(9.6%float, 7%Z); (10.4%float, 3%Z)] |}
       = (largest * 0.95)%float
    /\ (largest * 0.95 = 9.879999999999999)%float.
Proof.
  assert (Hnan : Forall (fun k => is_nan k = false) [9.6%float; 10.4%float])
    by (repeat constructor).
  destruct (binary64_title_threshold
              {| Binary64.headings := [];
                 Binary64.size_thresholds := [(9.6%float, 7%Z); (10.4%float, 3%Z)] |}
              Hnan) as [largest [Hl Ht]].
  exists largest. split; [exact Hl|]. split; [exact Ht|].
  rewrite <- Ht. vm_compute. reflexivity.
Defined.

(** ** The histogram and the average *)

Lemma binary64_keys_dict_set {V} (k : float) (v : V) (d : Binary64.dict V) :
  Binary64.keys (Binary64.dict_set k v d) = Binary64.add_distinct (Binary64.keys d) k.
Proof.
  unfold Binary64.add_distinct. induction d as [|[k' v'] d IH]; [reflexivity|].
  cbn [Binary64.dict_set Binary64.keys map fst existsb].
  destruct (k' =? k)%float; cbn [orb]; [reflexivity|].
  cbn [map fst]. fold (Binary64.keys (Binary64.dict_set k v d)). rewrite IH.
  fold (Binary64.keys d).
  destruct (existsb _ (Binary64.keys d)); reflexivity.
Qed.

Lemma binary64_keys_count_size (self : Binary64.HeadingExtractor) (size : float) :
  Binary64.keys (Binary64.size_thresholds (Binary64.count_size self size))
  = Binary64.add_distinct (Binary64.keys (Binary64.size_thresholds self)) size.
Proof.
  unfold Binary64.count_size. cbn [Binary64.size_thresholds].
  destruct (Binary64.dict_get size (Binary64.size_thresholds self));
    apply binary64_keys_dict_set.
Qed.

Lemma binary64_keys_observed (obs : list float) (self : Binary64.HeadingExtractor) :
  Binary64.keys (Binary64.size_thresholds (fold_left Binary64.count_size obs self))
  = fold_left Binary64.add_distinct obs (Binary64.keys (Binary64.size_thresholds self)).
Proof.
  revert self. induction obs as [|x obs IH]; intro self; [reflexivity|].
  cbn [fold_left]. rewrite IH, binary64_keys_count_size. reflexivity.
Qed.

Lemma ForallOrdPairs_snoc {A} (R : A -> A -> Prop) (l : list A) (x : A) :
  ForallOrdPairs R l -> Forall (fun a => R a x) l -> ForallOrdPairs R (l ++ [x]).
Proof.
  induction 1 as [|a l Ha Hl IH]; intro Hx.
  - cbn. constructor; constructor.
  - inversion Hx as [|? ? Hax Hlx]; subst. cbn [app]. constructor.
    + apply Forall_app. split; [exact Ha | constructor; [exact Hax | constructor]].
    + apply IH. exact Hlx.
Qed.

Lemma binary64_add_distinct_spec (seen : list float) (x : float) :
  is_nan x = false ->
  ForallOrdPairs (fun k k' => (k =? k')%float = false) seen ->
  ForallOrdPairs (fun k k' => (k =? k')%float = false) (Binary64.add_distinct seen x)
  /\ existsb (fun k => (k =? x)%float) (Binary64.add_distinct seen x) = true
  /\ (exists more, Binary64.add_distinct seen x = seen ++ more
                   /\ forall k, In k more -> k = x).
Proof.
  intros Hx Hnd. unfold Binary64.add_distinct.
  destruct (existsb (fun k => (k =? x)%float) seen) eqn:E.
  - split; [exact Hnd|]. split; [exact E|].
    exists []. split; [rewrite app_nil_r; reflexivity | intros k []].
  - split; [|split].
    + apply ForallOrdPairs_snoc; [exact Hnd|].
      apply Forall_forall. intros k Hk.
      destruct (k =? x)%float eqn:Ek; [|reflexivity].
      assert (Hex : existsb (fun k => (k =? x)%float) seen = true)
        by (apply existsb_exists; exists k; split; assumption).
      congruence.
    + rewrite existsb_app. cbn. rewrite (float_eqb_refl x Hx).
      rewrite orb_true_r. reflexivity.
    + exists [x]. split; [reflexivity|]. intros k [<-|[]]. reflexivity.
Qed.

Lemma binary64_distinct_spec (obs seen : list float) :
  Forall (fun x => is_nan x = false) obs ->
  ForallOrdPairs (fun k k' => (k =? k')%float = false) seen ->
  ForallOrdPairs (fun k k' => (k =? k')%float = false)
                 (fold_left Binary64.add_distinct obs seen)
  /\ (forall x, In x obs ->
                existsb (fun k => (k =? x)%float)
                        (fold_left Binary64.add_distinct obs seen) = true)
  /\ (exists more, fold_left Binary64.add_distinct obs seen = seen ++ more
                   /\ forall k, In k more -> In k obs).
Proof.
  intro Hobs. revert seen. induction Hobs as [|a obs Ha Hobs IH]; intros seen Hnd.
  - cbn [fold_left]. split; [exact Hnd|]. split; [intros x []|].
    exists []. split; [rewrite app_nil_r; reflexivity | intros k []].
  - cbn [fold_left].
    destruct (binary64_add_distinct_spec seen a Ha Hnd) as [Hnd' [Hin [m1 [E1 Hm1]]]].
    destruct (IH _ Hnd') as [H1 [H2 [m2 [E2 Hm2]]]].
    split; [exact H1|]. split.
    + intros x [<-|Hx]; [|apply H2; exact Hx].
      rewrite E2, existsb_app, Hin. reflexivity.
    + exists (m1 ++ m2). split.
      * rewrite E2, E1, app_assoc. reflexivity.
      * intros k Hk. apply in_app_or in Hk. destruct Hk as [Hk|Hk].
        -- left. symmetry. apply Hm1. exact Hk.
        -- right. apply Hm2. exact Hk.
Qed.

(** C5. After any observations that are not NaN, the keys of the histogram
    are the distinct observed sizes, each once whatever its count, and
    [_get_average_font_size] returns 12.0 when there are none and otherwise
    the binary64 sum of the keys, added from the left in the order of their
    first observation, divided by their number; on every histogram it is
    12.0 or that quotient of the keys, the counts playing no part; ten
    observations of 10.0 and one of 30.0 give 20.0. *)
Theorem binary64_average (obs : list float) (hs : list Heading) :
  Forall (fun x => is_nan x = false) obs ->
  let self :=
    fold_left Binary64.count_size obs
              {| Binary64.headings := hs; Binary64.size_thresholds := [] |} in
  Binary64.keys (Binary64.size_thresholds self) = Binary64.distinct_sizes obs
  /\ ForallOrdPairs (fun k k' => (k =? k')%float = false) (Binary64.distinct_sizes obs)
  /\ (forall x, In x obs ->
                existsb (fun k => (k =? x)%float) (Binary64.distinct_sizes obs) = true)
  /\ (forall k, In k (Binary64.distinct_sizes obs) -> In k obs)
  /\ Binary64._get_average_font_size self
     = match Binary64.distinct_sizes obs with
       | [] => 12.0%float
       | sizes =>
           (fold_left PrimFloat.add sizes 0
            / PrimFloat.of_uint63 (Uint63.of_Z (Z.of_nat (List.length sizes))))%float
       end
  /\ (forall self',
        Binary64._get_average_font_size self'
        = match Binary64.keys (Binary64.size_thresholds self') with
          | [] => 12.0%float
          | sizes =>
              (fold_left PrimFloat.add sizes 0
               / PrimFloat.of_uint63 (Uint63.of_Z (Z.of_nat (List.length sizes))))%float
          end)
  /\ Binary64._get_average_font_size
       (fold_left Binary64.count_size (repeat 10.0%float 10 ++ [30.0%float])
                  {| Binary64.headings := []; Binary64.size_thresholds := [] |})
     = 20.0%float.
Proof.
  intro Hobs. cbv zeta.
  assert (Hkeys : Binary64.keys
                    (Binary64.size_thresholds
                       (fold_left Binary64.count_size obs
                          {| Binary64.headings := hs; Binary64.size_thresholds := [] |}))
                  = Binary64.distinct_sizes obs).
  { rewrite binary64_keys_observed. reflexivity. }
  assert (Havg : forall self',
             Binary64._get_average_font_size self'
             = match Binary64.keys (Binary64.size_thresholds self') with
               | [] => 12.0%float
               | sizes =>
                   (fold_left PrimFloat.add sizes 0
                    / PrimFloat.of_uint63 (Uint63.of_Z (Z.of_nat (List.length sizes))))%float
               end).
  { intro self'. unfold Binary64._get_average_font_size.
    destruct (Binary64.size_thresholds self'); reflexivity. }
  destruct (binary64_distinct_spec obs [] Hobs (FOP_nil _)) as [Hnd [Hcov [more [E Hmore]]]].
  split; [exact Hkeys|]. split; [exact Hnd|]. split; [exact Hcov|]. split.
  - intros k Hk. apply Hmore. unfold Binary64.distinct_sizes in Hk.
    rewrite E in Hk. exact Hk.
  - split; [rewrite Havg, Hkeys; reflexivity|].
    split; [exact Havg | vm_compute; reflexivity].
Qed.

(** C5, witness: ten observations of 10.0 and one of 30.0. *)
Lemma binary64_average_witness :
  Binary64.keys
    (Binary64.size_thresholds
       (fold_left Binary64.count_size (repeat 10.0%float 10 ++ [30.0%float])
                  {| Binary64.headings := []; Binary64.size_thresholds := [] |}))
  = [10.0%float; 30.0%float]
  /\ Binary64._get_average_font_size
       (fold_left Binary64.count_size (repeat 10.0%float 10 ++ [30.0%float])
                  {| Binary64.headings := []; Binary64.size_thresholds := [] |})
     = 20.0%float.
Proof.
  assert (Hobs : Forall (fun x => is_nan x = false) (repeat 10.0%float 10 ++ [30.0%float]))
    by (repeat constructor).
  destruct (binary64_average (repeat 10.0%float 10 ++ [30.0%float]) [] Hobs)
    as [Hkeys [_ [_ [_ [_ [_ Hex]]]]]].
  split; [rewrite Hkeys; vm_compute; reflexivity | exact Hex].
Defined.

(** The sum is rounded at each addition: the keys 10.2, 10.4 and 10.0 give
    10.200000000000001. *)
Example binary64_average_is_rounded :
  Binary64._get_average_font_size
    {| Binary64.headings := [];
       Binary64.size_thresholds := [(10.2%float, 1%Z); (10.4%float, 1%Z); (10.0%float, 1%Z)] |}
  = 10.200000000000001%float.
Proof. vm_compute. reflexivity. Qed.

(** ** The title and the word "Untitled" *)

(** C1, on the page of [untitled_pdf].  The lines are "Untitled" and
    "Introduction", both at 20 points, which is the largest size, and the
    body at 10 points.  The first line is a heading and sets the title to
    "Untitled"; line 141 then takes the title for one not yet set, and the
    second heading replaces it: the title returned is "Introduction". *)
Theorem title_overwritten_on_untitled_pdf :
  map (fun e => (e_text e, e_size e)) untitled_lines
  = [(py "Untitled", 20.0); (py "Introduction", 20.0); (py "thebodyofthetext.", 10.0)]
  /\ document_lines (U := ascii_unicode) (Some untitled_pdf) = Some untitled_lines
  /\ fst (extract_headings (U := ascii_unicode) (Some untitled_pdf) __init__)
     = Returned (py "Introduction",
                 [ {| h_text := py "Untitled"; h_page := 1; h_level := H1 |};
                   {| h_text := py "Introduction"; h_page := 1; h_level := H1 |} ]).
Proof. repeat split; vm_compute; reflexivity. Qed.
